(** * The learner process of mini-AlphaStar

    A shallow embedding of [alphastarmini/core/rl/learner_process.py]:
    the two sampling policies ([get_normal_trajectories],
    [get_mixed_trajectories]), the update step ([update_parameters]) and
    the run loop ([run]) of class [LearnerProcess], with the properties
    the specification states about them.

    Python integers are [Z]; Python lists are [list], sliced with Python's
    rules for negative and out-of-range bounds; the [float] products of the
    mixed policy are IEEE binary64 values ([spec_float], precision 53,
    maximal exponent 1024) rounded to nearest-even; methods that mutate
    [self] are functions in a state-and-exception monad, so that what a
    method changed before it raised stays changed. *)

From Stdlib Require Import String.
From Stdlib Require Import ZArith List Bool Lia QArith.
From Stdlib Require Import Permutation.
From Stdlib Require Import Floats.SpecFloat.
Import ListNotations.

Local Open Scope Z_scope.

(** ** Exceptions and results *)

(** The exceptions the module can raise.  All of them derive from
    Python's [Exception], so the handlers of [run] catch every one.
    [ExternalError] stands for whatever an external collaborator (loss
    computation, optimizer, checkpoint write) raises. *)
Inductive exn : Type :=
| AssertionError
| OverflowError
| ValueError
| ExternalError (what : string).

Inductive result (A : Type) : Type :=
| Ok (a : A)
| Raise (e : exn).
Arguments Ok {A} a.
Arguments Raise {A} e.

(** ** Python values: list slices, ranges and binary64 floats *)

Module Py.

(** Bound of a slice with step 1, as [PySlice_AdjustIndices] computes
    it: a negative bound counts from the end, then the bound is clipped
    to [0 .. len]. *)
Definition adjust_index (len i : Z) : nat :=
  if i <? 0 then Z.to_nat (Z.max 0 (i + len)) else Z.to_nat (Z.min i len).

Definition len {A} (l : list A) : Z := Z.of_nat (length l).

(** [l[:stop]] *)
Definition slice_to {A} (l : list A) (stop : Z) : list A :=
  firstn (adjust_index (len l) stop) l.

(** [l[start:]] *)
Definition slice_from {A} (l : list A) (start : Z) : list A :=
  skipn (adjust_index (len l) start) l.

(** [l[start:stop]] *)
Definition slice {A} (l : list A) (start stop : Z) : list A :=
  let a := adjust_index (len l) start in
  let b := adjust_index (len l) stop in
  firstn (b - a) (skipn a l).

(** [range(n)] *)
Definition range (n : Z) : list Z :=
  map Z.of_nat (seq 0 (Z.to_nat n)).

Definition prec : Z := 53.
Definition emax : Z := 1024.

(** The [float] nearest to an integer (ties to even); it is an infinity
    when the integer is beyond the largest finite binary64 value. *)
Definition nearest_float (n : Z) : spec_float :=
  binary_normalize prec emax n 0 false.

(** Conversion of the [int] operand of a mixed [int * float] product:
    correctly rounded, [OverflowError] when the integer is too large for
    a [float]. *)
Definition float_of_int (n : Z) : result spec_float :=
  match nearest_float n with
  | S754_infinity _ => Raise OverflowError
  | f => Ok f
  end.

(** A decimal literal with value [p/q], for integers that binary64
    holds exactly: the literal denotes the float nearest to the
    quotient, which is what the correctly rounded division returns. *)
Definition float_lit (p q : Z) : spec_float :=
  SFdiv prec emax (nearest_float p) (nearest_float q).

(** [int(x)] for a float [x]: truncation toward zero. *)
Definition int_of_float (x : spec_float) : result Z :=
  match x with
  | S754_zero _ => Ok 0
  | S754_finite s m e => Ok (cond_Zopp s (Z.shiftl (Zpos m) e))
  | S754_infinity _ => Raise OverflowError
  | S754_nan => Raise ValueError
  end.

(** [int(n * x)] for an int [n] and a float [x]. *)
Definition int_mul_float (n : Z) (x : spec_float) : result Z :=
  match float_of_int n with
  | Ok f => int_of_float (SFmul prec emax f x)
  | Raise e => Raise e
  end.

End Py.

(** ** External collaborators

    What the module imports and does not define: the trajectory type,
    the network and its optimizer, the loss computation of
    [rl_loss.loss_function], the two hyper-parameters [AHP.batch_size]
    and [AHP.sequence_length], the random generator behind
    [random.shuffle], the wall clock behind [time()] and [sleep()], and
    the checkpoint write of [torch.save]. *)
Class Collaborators : Type := {
  Trajectory : Type;
  (** [self.learner.agent_nn.model], parameters and train/eval mode *)
  Net : Type;
  Optimizer : Type;
  (** the loss tensor, and the scalars the metrics sink receives *)
  Loss : Type;
  Scalar : Type;
  (** the state of the random generator and of the clock *)
  World : Type;
  batch_size : Z;
  sequence_length : Z;
  (** [random.shuffle(x)]: the shuffled list and the generator after it *)
  shuffle : World -> list Trajectory -> list Trajectory * World;
  (** [time()] and [sleep(seconds)]; a clock reading is a float, hence a
      rational number, and the loop compares exact differences *)
  time : World -> Q * World;
  sleep : Q -> World -> World;
  (** [model.train()] and [model.eval()] *)
  model_train : Net -> Net;
  model_eval : Net -> Net;
  (** [loss_function(agent, trajectories, use_opponent_state,
      no_replay_learn, only_update_baseline)], given the agent's network
      and step counter: the loss and the named loss components, in the
      order [loss_dict.items()] yields them *)
  loss_function : Net -> Z -> list Trajectory -> bool -> bool -> bool ->
                  result (Loss * list (string * Scalar));
  (** [loss.item()] *)
  loss_item : Loss -> Scalar;
  (** [optimizer.zero_grad(); loss.backward(); optimizer.step()] *)
  optimizer_step : Optimizer -> Net -> Loss -> result (Optimizer * Net);
  (** [torch.save(model.state_dict(), path)]: the exception of a failed
      write, if any *)
  torch_save : Net -> World -> option exn
}.

Section Learner.

Context {collab : Collaborators}.

(** ** The learner object *)

(** The attributes [__init__] sets and no method assigns afterwards. *)
Record Config : Type := {
  max_time_for_training : Q;
  is_rl_training : bool;
  use_opponent_state : bool;
  no_replay_learn : bool;
  num_epochs : Z;
  count_of_batches : Z;
  buffer_size : Z;
  use_random_sample : bool;
  only_update_baseline : bool
}.

(** [self], with what its methods reach outside of it: the checkpoint
    file at [SAVE_PATH] and the random generator and clock.  The three
    pools are the values of the attributes [trajectories],
    [final_trajectories] and [win_trajectories]; [learner_model] and
    [learner_steps] are [self.learner.agent_nn.model] and
    [self.learner.steps].  [writer] is the list of [(tag, value, step)]
    triples sent to the summary writer, oldest first.  Console output is
    not part of the state. *)
Record State : Type := {
  config : Config;
  learner_model : Net;
  learner_steps : Z;
  optimizer : Optimizer;
  trajectories : list Trajectory;
  final_trajectories : list Trajectory;
  win_trajectories : list Trajectory;
  writer : list (string * Scalar * Z);
  is_running : bool;
  checkpoint : option Net;
  world : World
}.

Definition set_learner_model (v : Net) (s : State) : State :=
  {| config := config s; learner_model := v; learner_steps := learner_steps s;
     optimizer := optimizer s; trajectories := trajectories s;
     final_trajectories := final_trajectories s;
     win_trajectories := win_trajectories s; writer := writer s;
     is_running := is_running s; checkpoint := checkpoint s; world := world s |}.

Definition set_learner_steps (v : Z) (s : State) : State :=
  {| config := config s; learner_model := learner_model s; learner_steps := v;
     optimizer := optimizer s; trajectories := trajectories s;
     final_trajectories := final_trajectories s;
     win_trajectories := win_trajectories s; writer := writer s;
     is_running := is_running s; checkpoint := checkpoint s; world := world s |}.

Definition set_optimizer (v : Optimizer) (s : State) : State :=
  {| config := config s; learner_model := learner_model s;
     learner_steps := learner_steps s;
     optimizer := v; trajectories := trajectories s;
     final_trajectories := final_trajectories s;
     win_trajectories := win_trajectories s; writer := writer s;
     is_running := is_running s; checkpoint := checkpoint s; world := world s |}.

Definition set_trajectories (v : list Trajectory) (s : State) : State :=
  {| config := config s; learner_model := learner_model s;
     learner_steps := learner_steps s;
     optimizer := optimizer s; trajectories := v;
     final_trajectories := final_trajectories s;
     win_trajectories := win_trajectories s; writer := writer s;
     is_running := is_running s; checkpoint := checkpoint s; world := world s |}.

Definition set_final_trajectories (v : list Trajectory) (s : State) : State :=
  {| config := config s; learner_model := learner_model s;
     learner_steps := learner_steps s;
     optimizer := optimizer s; trajectories := trajectories s;
     final_trajectories := v;
     win_trajectories := win_trajectories s; writer := writer s;
     is_running := is_running s; checkpoint := checkpoint s; world := world s |}.

Definition set_win_trajectories (v : list Trajectory) (s : State) : State :=
  {| config := config s; learner_model := learner_model s;
     learner_steps := learner_steps s;
     optimizer := optimizer s; trajectories := trajectories s;
     final_trajectories := final_trajectories s;
     win_trajectories := v; writer := writer s;
     is_running := is_running s; checkpoint := checkpoint s; world := world s |}.

Definition set_writer (v : list (string * Scalar * Z)) (s : State) : State :=
  {| config := config s; learner_model := learner_model s;
     learner_steps := learner_steps s;
     optimizer := optimizer s; trajectories := trajectories s;
     final_trajectories := final_trajectories s;
     win_trajectories := win_trajectories s; writer := v;
     is_running := is_running s; checkpoint := checkpoint s; world := world s |}.

Definition set_is_running (v : bool) (s : State) : State :=
  {| config := config s; learner_model := learner_model s;
     learner_steps := learner_steps s;
     optimizer := optimizer s; trajectories := trajectories s;
     final_trajectories := final_trajectories s;
     win_trajectories := win_trajectories s; writer := writer s;
     is_running := v; checkpoint := checkpoint s; world := world s |}.

Definition set_checkpoint (v : option Net) (s : State) : State :=
  {| config := config s; learner_model := learner_model s;
     learner_steps := learner_steps s;
     optimizer := optimizer s; trajectories := trajectories s;
     final_trajectories := final_trajectories s;
     win_trajectories := win_trajectories s; writer := writer s;
     is_running := is_running s; checkpoint := v; world := world s |}.

Definition set_world (v : World) (s : State) : State :=
  {| config := config s; learner_model := learner_model s;
     learner_steps := learner_steps s;
     optimizer := optimizer s; trajectories := trajectories s;
     final_trajectories := final_trajectories s;
     win_trajectories := win_trajectories s; writer := writer s;
     is_running := is_running s; checkpoint := checkpoint s; world := v |}.

(** ** Methods as state transformers that may raise *)

Definition M (A : Type) : Type := State -> result A * State.

Definition ret {A} (a : A) : M A := fun s => (Ok a, s).

Definition bind {A B} (m : M A) (f : A -> M B) : M B :=
  fun s => match m s with
           | (Ok a, s') => f a s'
           | (Raise e, s') => (Raise e, s')
           end.

Definition get : M State := fun s => (Ok s, s).

Definition modify (f : State -> State) : M unit := fun s => (Ok tt, f s).

(** An expression that evaluates to a value or raises, without touching
    the state. *)
Definition eval {A} (r : result A) : M A := fun s => (r, s).

(** [assert b] *)
Definition py_assert (b : bool) : M unit :=
  if b then ret tt else eval (Raise AssertionError).

(** [for x in l: body(x)] *)
Fixpoint for_each {A} (l : list A) (body : A -> M unit) : M unit :=
  match l with
  | [] => ret tt
  | x :: l' => bind (body x) (fun _ => for_each l' body)
  end.

Notation "x <- m ;; k" := (bind m (fun x => k))
  (at level 61, m at next level, right associativity).
Notation "' p <- m ;; k" := (bind m (fun x => let p := x in k))
  (at level 61, p pattern, m at next level, right associativity).
Notation "m ;; k" := (bind m (fun _ => k))
  (at level 61, right associativity).

(** ** Sampling policies *)

(** [send_trajectory], [send_final_trajectory], [send_win_trajectory] *)
Definition send_trajectory (trajectory : Trajectory) : M unit :=
  modify (fun self => set_trajectories (trajectories self ++ [trajectory]) self).

Definition send_final_trajectory (trajectory : Trajectory) : M unit :=
  modify (fun self =>
    set_final_trajectories (final_trajectories self ++ [trajectory]) self).

Definition send_win_trajectory (trajectory : Trajectory) : M unit :=
  modify (fun self =>
    set_win_trajectories (win_trajectories self ++ [trajectory]) self).

(** [sample_size = self.count_of_batches * batch_size] *)
Definition sample_size (self : State) : Z :=
  count_of_batches (config self) * batch_size.

(** [get_normal_trajectories] (lines 115-131). *)
Definition get_normal_trajectories : M (list Trajectory) :=
  self <- get ;;
  let sample_size := sample_size self in
  let trajectories_reduced := Py.slice_to (trajectories self) sample_size in
  let trajectories0 := [] ++ trajectories_reduced in
  py_assert (Py.len trajectories0 =? sample_size) ;;
  (if 0 <? Py.len (trajectories self)
   then modify (set_trajectories (Py.slice_from (trajectories self) sample_size))
   else ret tt) ;;
  ret trajectories0.

(** [split_ratio = [0.7, 0.2, 0.1]] *)
Definition split_ratio : list spec_float :=
  [Py.float_lit 7 10; Py.float_lit 2 10; Py.float_lit 1 10].

(** [min(1, int(sample_size * split_ratio[i]))] (lines 138 and 139) *)
Definition quota (sample_size : Z) (i : nat) : result Z :=
  match Py.int_mul_float sample_size (nth i split_ratio S754_nan) with
  | Ok q => Ok (Z.min 1 q)
  | Raise e => Raise e
  end.

Definition sample_final (sample_size : Z) : result Z := quota sample_size 1.
Definition sample_win (sample_size : Z) : result Z := quota sample_size 2.

(** [random.shuffle(x)] on one of the pools: the pool is shuffled in
    place, and the generator advances. *)
Definition random_shuffle (pool : State -> list Trajectory)
    (set_pool : list Trajectory -> State -> State) : M unit :=
  modify (fun self =>
    let (shuffled, w) := shuffle (world self) (pool self) in
    set_pool shuffled (set_world w self)).

(** Lines 148-158: the draw from the win pool.  It receives and returns
    the batch built so far and [reduce_sample_size]. *)
Definition draw_win (sample_size sample_win : Z)
    (acc : list Trajectory * Z) : M (list Trajectory * Z) :=
  self <- get ;;
  if 0 <? Py.len (win_trajectories self) then
    random_shuffle win_trajectories set_win_trajectories ;;
    self <- get ;;
    let trajectories_win := Py.slice_to (win_trajectories self) sample_win in
    let trajectories_win_length := Py.len trajectories_win in
    let reduce_sample_size := sample_size - trajectories_win_length in
    let trajectories0 := fst acc ++ trajectories_win in
    (if 128 <? Py.len (win_trajectories self)
     then modify (set_win_trajectories
                    (Py.slice_from (win_trajectories self) sample_win))
     else ret tt) ;;
    ret (trajectories0, reduce_sample_size)
  else ret acc.

(** Lines 160-170: the draw from the final pool. *)
Definition draw_final (sample_final : Z)
    (acc : list Trajectory * Z) : M (list Trajectory * Z) :=
  self <- get ;;
  if 0 <? Py.len (final_trajectories self) then
    random_shuffle final_trajectories set_final_trajectories ;;
    self <- get ;;
    let trajectories_final :=
      Py.slice_to (final_trajectories self) sample_final in
    let trajectories_final_length := Py.len trajectories_final in
    let reduce_sample_size := snd acc - trajectories_final_length in
    let trajectories0 := fst acc ++ trajectories_final in
    (if 64 <? Py.len (final_trajectories self)
     then modify (set_final_trajectories
                    (Py.slice_from (final_trajectories self) sample_final))
     else ret tt) ;;
    ret (trajectories0, reduce_sample_size)
  else ret acc.

(** Lines 172-184: the rest of the batch comes from the ordinary pool. *)
Definition draw_ordinary (sample_size : Z)
    (acc : list Trajectory * Z) : M (list Trajectory) :=
  self <- get ;;
  (if use_random_sample (config self)
   then random_shuffle trajectories set_trajectories
   else ret tt) ;;
  self <- get ;;
  let reduce_sample_size := snd acc in
  let trajectories_reduced :=
    Py.slice_to (trajectories self) reduce_sample_size in
  let trajectories0 := fst acc ++ trajectories_reduced in
  py_assert (Py.len trajectories0 =? sample_size) ;;
  (if 0 <? Py.len (trajectories self)
   then modify (set_trajectories
                  (Py.slice_from (trajectories self) reduce_sample_size))
   else ret tt) ;;
  ret trajectories0.

(** [get_mixed_trajectories] (lines 133-184). *)
Definition get_mixed_trajectories : M (list Trajectory) :=
  self <- get ;;
  let sample_size := sample_size self in
  sample_final <- eval (sample_final sample_size) ;;
  sample_win <- eval (sample_win sample_size) ;;
  acc <- draw_win sample_size sample_win ([], sample_size) ;;
  acc <- draw_final sample_final acc ;;
  draw_ordinary sample_size acc.

(** ** The update step *)

(** [self.writer.add_scalar(tag, value, step)] *)
Definition add_scalar (tag : string) (value : Scalar) (step : Z) : M unit :=
  modify (fun self => set_writer (writer self ++ [(tag, value, step)]) self).

(** Lines 205-225: one mini-batch. *)
Definition update_batch (trajectories0 : list Trajectory) (batch_id : Z)
  : M unit :=
  let update_trajectories :=
    Py.slice trajectories0 (batch_id * batch_size)
             ((batch_id + 1) * batch_size) in
  self <- get ;;
  '(loss, loss_dict) <-
    eval (loss_function (learner_model self) (learner_steps self)
            update_trajectories (use_opponent_state (config self))
            (no_replay_learn (config self))
            (only_update_baseline (config self))) ;;
  for_each loss_dict (fun '(i, k) =>
    self <- get ;;
    add_scalar (String.append "learner/" i) k (learner_steps self)) ;;
  self <- get ;;
  '(optimizer', model') <-
    eval (optimizer_step (optimizer self) (learner_model self) loss) ;;
  modify (fun self => set_optimizer optimizer' (set_learner_model model' self)) ;;
  self <- get ;;
  add_scalar "learner/loss" (loss_item loss) (learner_steps self) ;;
  modify (fun self =>
    set_learner_steps (learner_steps self + batch_size * sequence_length) self).

(** [update_parameters] (lines 186-231). *)
Definition update_parameters : M unit :=
  self <- get ;;
  if negb (is_rl_training (config self)) then ret tt else
  trajectories0 <- get_normal_trajectories ;;
  modify (fun self => set_learner_model (model_train (learner_model self)) self) ;;
  for_each (Py.range (num_epochs (config self))) (fun ep_id =>
    self <- get ;;
    for_each (Py.range (count_of_batches (config self))) (fun batch_id =>
      update_batch trajectories0 batch_id)) ;;
  self <- get ;;
  match torch_save (learner_model self) (world self) with
  | Some e => eval (Raise e)
  | None => modify (set_checkpoint (Some (learner_model self)))
  end ;;
  modify (fun self => set_learner_model (model_eval (learner_model self)) self).

(** ** The run loop *)

(** Lines 246-253: the body of the inner [try]. *)
Definition iteration : M unit :=
  self <- get ;;
  (if buffer_size (config self) * count_of_batches (config self) * batch_size
        <=? Py.len (trajectories self)
   then update_parameters
   else ret tt) ;;
  modify (fun self => set_world (sleep (1 # 20) (world self)) self).

(** Lines 242-258: the [while] loop.  Each turn reads the clock; an
    iteration that raises ends the loop ([break] in the handler).  The
    loop has no bound of its own, so the function takes the number of
    turns it may use and returns [None] when they do not suffice.  The
    first component of the result lists how each iteration that ran
    ended, oldest first. *)
Fixpoint run_loop (fuel : nat) (start_time : Q) (self : State)
  : option (list (result unit) * State) :=
  match fuel with
  | O => None
  | S fuel' =>
      let (now, w) := time (world self) in
      let self := set_world w self in
      if negb (Qle_bool (max_time_for_training (config self))
                        (now - start_time)%Q)
      then match iteration self with
           | (Ok _, self') =>
               match run_loop fuel' start_time self' with
               | Some (trace, self'') => Some (Ok tt :: trace, self'')
               | None => None
               end
           | (Raise e, self') => Some ([Raise e], self')
           end
      else Some ([], self)
  end.

(** [run] (lines 237-264): nothing between the outer [try] and the loop
    raises here, so its handler stays unused; the [finally] clause runs
    whenever the loop ends. *)
Definition run (fuel : nat) (self : State)
  : option (list (result unit) * State) :=
  let (start_time, w) := time (world self) in
  let self := set_is_running true (set_world w self) in
  match run_loop fuel start_time self with
  | Some (trace, self') => Some (trace, set_is_running false self')
  | None => None
  end.

(** [loop_head start self k self_k]: started at [self] with the clock
    reading [start], the loop is back at its head in state [self_k] after
    [k] iterations that all ended without an exception. *)
Inductive loop_head (start_time : Q) (self : State) : nat -> State -> Prop :=
| loop_head_first : loop_head start_time self O self
| loop_head_next k self_k now w self' :
    loop_head start_time self k self_k ->
    time (world self_k) = (now, w) ->
    Qle_bool (max_time_for_training (config self_k)) (now - start_time)%Q
      = false ->
    iteration (set_world w self_k) = (Ok tt, self') ->
    loop_head start_time self (S k) self'.

End Learner.

(** The three pools together. *)
Definition pools {collab : Collaborators} (self : State) : list Trajectory :=
  win_trajectories self ++ final_trajectories self ++ trajectories self.

(** ** What the specification says the quotas are

    The specification reserves [max(1, floor(sample_size * 0.1))] win
    trajectories and [max(1, floor(sample_size * 0.2))] final ones. *)
Definition spec_sample_win (sample_size : Z) : Z := Z.max 1 (sample_size / 10).
Definition spec_sample_final (sample_size : Z) : Z :=
  Z.max 1 (sample_size * 2 / 10).

(** ** A concrete set of collaborators

    Trajectories are numbers, [random.shuffle] reverses the list, the
    clock advances by one second at each reading, the network and the
    optimizer count their updates, and the loss computation raises once
    the step counter has reached [fail_at], if there is one. *)
Module Demo.

Definition collab (bs sl : Z) (fail_at : option Z) : Collaborators := {|
  Trajectory := nat;
  Net := nat;
  Optimizer := nat;
  Loss := nat;
  Scalar := nat;
  World := nat;
  batch_size := bs;
  sequence_length := sl;
  shuffle := fun w l => (rev l, S w);
  time := fun w => (inject_Z (Z.of_nat w), S w);
  sleep := fun _ w => w;
  model_train := fun net => net;
  model_eval := fun net => net;
  loss_function := fun net steps ts _ _ _ =>
    match fail_at with
    | Some bound =>
        if bound <=? steps then Raise (ExternalError "loss")
        else Ok (length ts, [("actor"%string, length ts)])
    | None => Ok (length ts, [("actor"%string, length ts)])
    end;
  loss_item := fun loss => loss;
  optimizer_step := fun opt net loss => Ok (S opt, S net);
  torch_save := fun _ _ => None
|}.

Definition config (training : bool) (epochs batches : Z) : Config := {|
  max_time_for_training := 5;
  is_rl_training := training;
  use_opponent_state := true;
  no_replay_learn := false;
  num_epochs := epochs;
  count_of_batches := batches;
  buffer_size := 1;
  use_random_sample := false;
  only_update_baseline := false
|}.

(** A learner whose pools hold [o] ordinary, [f] final and [w] win
    trajectories, numbered from 0, from 1000 and from 2000. *)
Definition learner (bs sl : Z) (fail_at : option Z) (cfg : Config)
    (o f w : nat)
  : @State (collab bs sl fail_at) :=
  @Build_State (collab bs sl fail_at) cfg 0%nat 0 0%nat
    (seq 0 o) (seq 1000 f) (seq 2000 w) [] false None 0%nat.

(** Uniform sampling: a sample of [2 * 2] out of six, and out of three. *)
Definition uniform_learner : State :=
  learner 2 4 None (config true 2 2) 6 0 0.
Definition short_learner : State :=
  learner 2 4 None (config true 2 2) 3 0 0.
Definition idle_learner : State :=
  learner 2 4 None (config false 2 2) 6 0 0.

(** Mixed sampling with a sample of ten: the scenario of the
    specification, a win pool of one, and pools above both thresholds. *)
Definition mixed_learner : State :=
  learner 10 1 None (config true 1 1) 100 3 5.
Definition scarce_learner : State :=
  learner 10 1 None (config true 1 1) 30 0 1.

(** A learner whose second update fails in the loss computation. *)
Definition failing_learner : State :=
  learner 2 4 (Some 8) (config true 1 1) 10 0 0.

End Demo.

(** ** Views of the state

    What the sampling policies and the idle loop leave alone is stated
    through two projections: the learning side of the learner and its
    three pools. *)
Definition learning_view {collab : Collaborators} (self : State) :=
  (learner_model self, learner_steps self, optimizer self, writer self,
   checkpoint self).

Definition pools_view {collab : Collaborators} (self : State) :=
  (trajectories self, final_trajectories self, win_trajectories self).

(** What no sampling policy changes. *)
Definition sampling_frame {collab : Collaborators} (self : State) :=
  (learning_view self, config self, is_running self).

(** What the processing of a mini-batch does not change. *)
Definition batch_frame {collab : Collaborators} (self : State) :=
  (config self, pools_view self, is_running self, checkpoint self,
   world self).


(** ** More concrete learners *)
Module Cases.

(** Uniform sampling of four out of nine, and mixed sampling of ten with
    empty win and final pools, or with an ordinary pool of three. *)
Definition stocked_learner : State :=
  Demo.learner 2 4 None (Demo.config true 2 2) 9 0 0.
Definition ordinary_only_learner : State :=
  Demo.learner 10 1 None (Demo.config true 1 1) 30 0 0.
Definition starved_learner : State :=
  Demo.learner 10 1 None (Demo.config true 1 1) 3 3 5.

(** Learners whose loss computation raises in the second epoch, and at
    once. *)
Definition second_epoch_failure : State :=
  Demo.learner 2 4 (Some 8) (Demo.config true 2 1) 10 0 0.
Definition first_batch_failure : State :=
  Demo.learner 2 4 (Some 0) (Demo.config true 1 1) 10 0 0.

(** A learner with [buffer_size = 0], so that the run loop updates
    whatever the pool holds, here one trajectory for a sample of four. *)
Definition unbuffered_config : Config := {|
  max_time_for_training := 5;
  is_rl_training := true;
  use_opponent_state := true;
  no_replay_learn := false;
  num_epochs := 1;
  count_of_batches := 2;
  buffer_size := 0;
  use_random_sample := false;
  only_update_baseline := false
|}.
Definition unbuffered_learner : State :=
  Demo.learner 2 4 None unbuffered_config 1 0 0.

(** A learner configured with a negative number of batches. *)
Definition negative_learner : State :=
  Demo.learner 2 4 None (Demo.config true 1 (-1)) 6 0 0.

End Cases.

(** * Properties *)

(** ** Slices *)

Section SliceFacts.

Context {A : Type}.
Implicit Types (l : list A) (k : Z).

Lemma slice_to_from l k : Py.slice_to l k ++ Py.slice_from l k = l.
Proof. apply firstn_skipn. Qed.

Lemma len_app l l' : Py.len (l ++ l') = Py.len l + Py.len l'.
Proof. unfold Py.len. rewrite length_app. lia. Qed.

Lemma len_nonneg l : 0 <= Py.len l.
Proof. unfold Py.len. lia. Qed.

Lemma len_slice_from l k :
  Py.len (Py.slice_from l k) = Py.len l - Py.len (Py.slice_to l k).
Proof. rewrite <- (slice_to_from l k) at 2. rewrite len_app. lia. Qed.

Lemma adjust_index_nonneg l k :
  0 <= k -> Py.adjust_index (Py.len l) k = Nat.min (Z.to_nat k) (length l).
Proof.
  intros Hk. unfold Py.adjust_index, Py.len.
  destruct (Z.ltb_spec k 0); lia.
Qed.

Lemma slice_to_nonneg l k :
  0 <= k -> Py.slice_to l k = firstn (Z.to_nat k) l.
Proof.
  intros Hk. unfold Py.slice_to. rewrite adjust_index_nonneg by assumption.
  destruct (Nat.le_ge_cases (Z.to_nat k) (length l)) as [Hle|Hge].
  - now rewrite Nat.min_l.
  - rewrite Nat.min_r by assumption. now rewrite !firstn_all2 by lia.
Qed.

Lemma slice_from_nonneg l k :
  0 <= k -> Py.slice_from l k = skipn (Z.to_nat k) l.
Proof.
  intros Hk. unfold Py.slice_from. rewrite adjust_index_nonneg by assumption.
  destruct (Nat.le_ge_cases (Z.to_nat k) (length l)) as [Hle|Hge].
  - now rewrite Nat.min_l.
  - rewrite Nat.min_r by assumption. now rewrite !skipn_all2 by lia.
Qed.

Lemma len_slice_to_nonneg l k :
  0 <= k -> Py.len (Py.slice_to l k) = Z.min k (Py.len l).
Proof.
  intros Hk. rewrite slice_to_nonneg by assumption.
  unfold Py.len. rewrite length_firstn. lia.
Qed.

Lemma len_permutation l l' : Permutation l l' -> Py.len l = Py.len l'.
Proof. intros H. unfold Py.len. now rewrite (Permutation_length H). Qed.

End SliceFacts.

(** ** binary64 rounding

    The mantissa and exponent bounds that keep the products of the mixed
    policy finite. *)

Lemma digits2_pos_size p : digits2_pos p = Pos.size p.
Proof. induction p; simpl; congruence. Qed.

Lemma digits2_pos_bounds p :
  2 ^ (Zpos (digits2_pos p) - 1) <= Zpos p < 2 ^ Zpos (digits2_pos p).
Proof.
  rewrite digits2_pos_size. split.
  - pose proof (Pos.size_le p) as H.
    apply Pos2Z.pos_le_pos in H. rewrite Pos2Z.inj_pow in H.
    replace (Zpos (Pos.size p)) with (Zpos (Pos.size p) - 1 + 1) in H by lia.
    rewrite Z.pow_add_r in H by lia. lia.
  - pose proof (Pos.size_gt p) as H.
    apply Pos2Z.pos_lt_pos in H. now rewrite Pos2Z.inj_pow in H.
Qed.

Lemma Zdigits2_nonneg m : 0 <= Zdigits2 m.
Proof. destruct m; simpl; lia. Qed.

Lemma Zdigits2_le m k : 0 <= k -> 0 <= m < 2 ^ k -> Zdigits2 m <= k.
Proof.
  intros Hk [H0 Hm]. destruct m as [|p|p]; simpl; try lia.
  destruct (digits2_pos_bounds p) as [Hlo _].
  destruct (Z.le_gt_cases (Zpos (digits2_pos p)) k) as [|Hgt]; [assumption|].
  assert (2 ^ k <= 2 ^ (Zpos (digits2_pos p) - 1))
    by (apply Z.pow_le_mono_r; lia).
  lia.
Qed.

Lemma Zdigits2_gt m : 0 <= m -> m < 2 ^ Zdigits2 m.
Proof.
  intros H. destruct m as [|p|p]; simpl; try lia.
  apply digits2_pos_bounds.
Qed.

Lemma shr_m_shr_1 mrs : 0 <= shr_m mrs -> shr_m (shr_1 mrs) = shr_m mrs / 2.
Proof.
  destruct mrs as [m r s]. simpl. intros Hm.
  destruct m as [|[p|p|]|p]; cbn [shr_m]; try reflexivity; try lia.
  - apply Z.div_unique with 1; lia.
  - apply Z.div_unique with 0; lia.
Qed.

Lemma shr_m_iter_pos p : forall mrs,
  0 <= shr_m mrs ->
  shr_m (iter_pos shr_1 p mrs) = shr_m mrs / 2 ^ Zpos p.
Proof.
  induction p as [p IH|p IH|]; intros mrs Hm; simpl iter_pos.
  - assert (H1 : 0 <= shr_m (shr_1 mrs))
      by (rewrite shr_m_shr_1 by assumption; apply Z.div_pos; lia).
    assert (H2 : 0 <= shr_m (iter_pos shr_1 p (shr_1 mrs)))
      by (rewrite IH by assumption; apply Z.div_pos; lia).
    rewrite IH, IH, shr_m_shr_1 by assumption.
    rewrite !Z.div_div by lia. f_equal.
    change 2 with (2 ^ 1) at 1.
    rewrite <- !Z.pow_add_r by lia. f_equal. lia.
  - assert (H2 : 0 <= shr_m (iter_pos shr_1 p mrs))
      by (rewrite IH by assumption; apply Z.div_pos; lia).
    rewrite IH, IH by assumption.
    rewrite !Z.div_div by lia. f_equal.
    rewrite <- Z.pow_add_r by lia. f_equal. lia.
  - now rewrite shr_m_shr_1.
Qed.

Lemma shr_fexp_spec m e l :
  0 <= m ->
  snd (shr_fexp Py.prec Py.emax m e l) =
    Z.max e (fexp Py.prec Py.emax (Zdigits2 m + e)) /\
  shr_m (fst (shr_fexp Py.prec Py.emax m e l)) =
    m / 2 ^ (snd (shr_fexp Py.prec Py.emax m e l) - e).
Proof.
  intros Hm. unfold shr_fexp, shr.
  assert (Hrec : shr_m (shr_record_of_loc m l) = m)
    by (destruct l as [|[| |]]; reflexivity).
  destruct (fexp Py.prec Py.emax (Zdigits2 m + e) - e) as [|p|p] eqn:Hs;
    simpl fst; simpl snd.
  - rewrite Z.sub_diag, Hrec, Z.div_1_r. lia.
  - rewrite shr_m_iter_pos by lia. rewrite Hrec.
    replace (e + Zpos p - e) with (Zpos p) by lia. lia.
  - rewrite Z.sub_diag, Hrec, Z.div_1_r. lia.
Qed.

Lemma fexp_binary64 e :
  fexp Py.prec Py.emax e = Z.max (e - 53) (-1074).
Proof. reflexivity. Qed.

Lemma div_pow2_lt m a s :
  0 <= m < 2 ^ a -> 0 <= a -> 0 <= s -> m / 2 ^ s < 2 ^ Z.max 0 (a - s).
Proof.
  intros [H0 Hm] Ha Hs.
  assert (0 < 2 ^ s) by (apply Z.pow_pos_nonneg; lia).
  destruct (Z.le_gt_cases s a) as [Hle|Hgt].
  - rewrite Z.max_r by lia.
    apply Z.div_lt_upper_bound; [assumption|].
    rewrite <- Z.pow_add_r by lia. now replace (s + (a - s)) with a by lia.
  - rewrite Z.max_l by lia. rewrite Z.div_small; [reflexivity|].
    split; [assumption|].
    apply Z.lt_le_trans with (2 ^ a); [assumption|].
    apply Z.pow_le_mono_r; lia.
Qed.

Lemma round_nearest_even_bounds m l :
  m <= round_nearest_even m l <= m + 1.
Proof.
  destruct l as [|[| |]]; simpl; try lia.
  destruct (Z.even m); lia.
Qed.

(** Rounding a non-negative mantissa whose magnitude is below [2^1023]
    gives a zero or a finite float of the same sign, with a mantissa of
    at most 53 bits. *)
Lemma binary_round_aux_finite sx mx ex lx :
  0 <= mx -> ex <= 971 -> Zdigits2 mx + ex <= 1023 ->
  binary_round_aux Py.prec Py.emax sx mx ex lx = S754_zero sx \/
  exists m e,
    binary_round_aux Py.prec Py.emax sx mx ex lx = S754_finite sx m e /\
    Zpos (digits2_pos m) <= 53 /\ e <= 971.
Proof.
  intros Hmx Hex Hmag. unfold binary_round_aux.
  destruct (shr_fexp_spec mx ex lx Hmx) as [He1 Hm1].
  destruct (shr_fexp Py.prec Py.emax mx ex lx) as [mrs1 e1].
  cbn [fst snd] in He1, Hm1. rewrite fexp_binary64 in He1.
  pose proof (Zdigits2_nonneg mx) as Hd0.
  pose proof (Zdigits2_gt mx Hmx) as Hmxlt.
  assert (Hs1 : 0 <= e1 - ex) by lia.
  assert (H2s1 : 0 < 2 ^ (e1 - ex)) by (apply Z.pow_pos_nonneg; lia).
  assert (Hm1pos : 0 <= shr_m mrs1)
    by (rewrite Hm1; apply Z.div_pos; lia).
  pose proof (div_pow2_lt mx (Zdigits2 mx) (e1 - ex)
                (conj Hmx Hmxlt) Hd0 Hs1) as Hm1lt.
  rewrite <- Hm1 in Hm1lt.
  pose proof (round_nearest_even_bounds (shr_m mrs1)
                (loc_of_shr_record mrs1)) as Hrnd.
  set (m2 := round_nearest_even (shr_m mrs1) (loc_of_shr_record mrs1)) in *.
  set (D := Z.max 0 (Zdigits2 mx - (e1 - ex))) in *.
  assert (Hm2 : 0 <= m2) by lia.
  assert (Hm2lt : m2 < 2 ^ (D + 1)).
  { rewrite Z.pow_add_r by lia. change (2 ^ 1) with 2. lia. }
  assert (Hd2 : Zdigits2 m2 <= D + 1)
    by (apply Zdigits2_le; lia).
  pose proof (Zdigits2_nonneg m2) as Hd2pos.
  destruct (shr_fexp_spec m2 e1 loc_Exact Hm2) as [He2 Hm3].
  destruct (shr_fexp Py.prec Py.emax m2 e1 loc_Exact) as [mrs2 e2].
  cbn [fst snd] in He2, Hm3. rewrite fexp_binary64 in He2.
  assert (Hs2 : 0 <= e2 - e1) by lia.
  pose proof (div_pow2_lt m2 (Zdigits2 m2) (e2 - e1)
                (conj Hm2 (Zdigits2_gt m2 Hm2)) Hd2pos Hs2) as Hm3lt.
  rewrite <- Hm3 in Hm3lt.
  assert (Hm3pos : 0 <= shr_m mrs2).
  { rewrite Hm3. apply Z.div_pos; [lia|]. apply Z.pow_pos_nonneg; lia. }
  assert (Hm3lt53 : shr_m mrs2 < 2 ^ 53).
  { eapply Z.lt_le_trans; [exact Hm3lt|]. apply Z.pow_le_mono_r; lia. }
  destruct (shr_m mrs2) as [|m|m] eqn:Em3.
  - now left.
  - right. exists m, e2.
    assert (He2le : e2 <= 971) by (subst D; lia).
    replace (e2 <=? Py.emax - Py.prec) with true
      by (symmetry; apply Z.leb_le; unfold Py.emax, Py.prec; lia).
    split; [reflexivity|]. split; [|assumption].
    change (Zdigits2 (Zpos m) <= 53). apply Zdigits2_le; lia.
  - lia.
Qed.

Lemma pos_iter_xO p d : Zpos (Pos.iter xO p d) = Zpos p * 2 ^ Zpos d.
Proof.
  induction d as [|d IH] using Pos.peano_ind.
  - simpl. lia.
  - rewrite Pos.iter_succ, Pos2Z.inj_xO, IH, Pos2Z.inj_succ, Z.pow_succ_r; lia.
Qed.

Lemma nearest_float_finite n :
  0 <= n < 2 ^ 1023 ->
  Py.nearest_float n = S754_zero false \/
  exists m e,
    Py.nearest_float n = S754_finite false m e /\
    Zpos (digits2_pos m) <= 53 /\ e <= 971.
Proof.
  intros [H0 Hn]. unfold Py.nearest_float, binary_normalize.
  destruct n as [|p|p]; [now left| |lia].
  unfold binary_round, shl_align.
  pose proof (digits2_pos_bounds p) as [Hlo Hhi].
  assert (Hdp : Zpos (digits2_pos p) <= 1023)
    by (apply (Zdigits2_le (Zpos p)); lia).
  rewrite fexp_binary64.
  destruct (Z.max (Zpos (digits2_pos p) + 0 - 53) (-1074) - 0)
    as [|d|d] eqn:Ed.
  - apply binary_round_aux_finite; simpl; lia.
  - apply binary_round_aux_finite; simpl; lia.
  - apply binary_round_aux_finite; [lia|lia|].
    assert (Zdigits2 (Zpos (Pos.iter xO p d)) <= Zpos (digits2_pos p) + Zpos d);
      [|lia].
    apply Zdigits2_le; [lia|]. rewrite pos_iter_xO.
    rewrite Z.pow_add_r by lia.
    assert (0 < 2 ^ Zpos d) by (apply Z.pow_pos_nonneg; lia).
    nia.
Qed.

Lemma digits2_pos_mul a b :
  Zpos (digits2_pos (a * b)) <= Zpos (digits2_pos a) + Zpos (digits2_pos b).
Proof.
  apply (Zdigits2_le (Zpos (a * b))); [lia|].
  pose proof (digits2_pos_bounds a) as [_ Ha].
  pose proof (digits2_pos_bounds b) as [_ Hb].
  rewrite Z.pow_add_r, Pos2Z.inj_mul by lia. nia.
Qed.

(** A shift keeps a positive mantissa above an integer [T <= 2^53]; the
    inequality [T <= m * 2^e] is written without negative powers. *)
Lemma shr_fexp_at_least T m e l :
  0 < T <= 2 ^ 53 -> 0 < m ->
  T * 2 ^ Z.max 0 (- e) <= m * 2 ^ Z.max 0 e ->
  0 < shr_m (fst (shr_fexp Py.prec Py.emax m e l)) /\
  T * 2 ^ Z.max 0 (- snd (shr_fexp Py.prec Py.emax m e l)) <=
    shr_m (fst (shr_fexp Py.prec Py.emax m e l))
    * 2 ^ Z.max 0 (snd (shr_fexp Py.prec Py.emax m e l)).
Proof.
  intros [HT0 HT] Hm Hge.
  destruct (shr_fexp_spec m e l) as [He' Hm']; [lia|].
  rewrite fexp_binary64 in He'.
  set (e' := snd (shr_fexp Py.prec Py.emax m e l)) in *.
  set (m' := shr_m (fst (shr_fexp Py.prec Py.emax m e l))) in *.
  destruct (Z.eq_dec e' e) as [Heq|Hne].
  - rewrite Heq in *. rewrite Z.sub_diag, Z.div_1_r in Hm'. rewrite Hm'.
    split; assumption.
  - assert (Hlt : e < e') by lia.
    assert (H2s : 0 < 2 ^ (e' - e)) by (apply Z.pow_pos_nonneg; lia).
    destruct (Z.le_gt_cases e' 0) as [Hneg|Hpos].
    + rewrite (Z.max_l 0 e'), Z.pow_0_r, Z.mul_1_r by lia.
      rewrite (Z.max_r 0 (- e')) by lia.
      rewrite (Z.max_l 0 e), Z.pow_0_r, Z.mul_1_r in Hge by lia.
      rewrite (Z.max_r 0 (- e)) in Hge by lia.
      replace (- e) with (- e' + (e' - e)) in Hge by lia.
      rewrite Z.pow_add_r in Hge by lia.
      assert (Hlow : T * 2 ^ (- e') <= m').
      { rewrite Hm'. apply Z.div_le_lower_bound; [assumption|]. lia. }
      assert (0 < 2 ^ (- e')) by (apply Z.pow_pos_nonneg; lia).
      split; [nia|assumption].
    + assert (Hs : e' - e = Zdigits2 m - 53) by lia.
      pose proof (Zdigits2_nonneg m) as Hd.
      assert (Hmlo : 2 ^ (Zdigits2 m - 1) <= m).
      { destruct m as [|p|p]; try lia. apply digits2_pos_bounds. }
      assert (Hlow : 2 ^ 52 <= m').
      { rewrite Hm'. apply Z.div_le_lower_bound; [assumption|].
        rewrite <- Z.pow_add_r by lia.
        now replace (e' - e + 52) with (Zdigits2 m - 1) by lia. }
      rewrite (Z.max_r 0 e'), (Z.max_l 0 (- e')), Z.pow_0_r, Z.mul_1_r by lia.
      assert (2 ^ 1 <= 2 ^ e') by (apply Z.pow_le_mono_r; lia).
      change (2 ^ 1) with 2 in *. change (2 ^ 53) with (2 ^ 52 * 2) in HT.
      split; [lia|nia].
Qed.

(** Rounding to nearest does not go below a value that binary64 holds:
    a positive mantissa with [T <= mx * 2^ex], for an integer
    [T <= 2^53], rounds to a finite float that is still at least [T]. *)
Lemma binary_round_aux_at_least T sx mx ex lx :
  0 < T <= 2 ^ 53 -> 0 < mx ->
  T * 2 ^ Z.max 0 (- ex) <= mx * 2 ^ Z.max 0 ex ->
  match binary_round_aux Py.prec Py.emax sx mx ex lx with
  | S754_finite _ m e => T * 2 ^ Z.max 0 (- e) <= Zpos m * 2 ^ Z.max 0 e
  | S754_zero _ => False
  | _ => True
  end.
Proof.
  intros HT Hmx Hge. unfold binary_round_aux.
  destruct (shr_fexp_at_least T mx ex lx HT Hmx Hge) as [Hm1 Hge1].
  destruct (shr_fexp Py.prec Py.emax mx ex lx) as [mrs1 e1].
  cbn [fst snd] in Hm1, Hge1.
  pose proof (round_nearest_even_bounds (shr_m mrs1)
                (loc_of_shr_record mrs1)) as Hrnd.
  set (m2 := round_nearest_even (shr_m mrs1) (loc_of_shr_record mrs1)) in *.
  assert (Hm2 : 0 < m2) by lia.
  assert (Hge2 : T * 2 ^ Z.max 0 (- e1) <= m2 * 2 ^ Z.max 0 e1).
  { assert (0 < 2 ^ Z.max 0 e1) by (apply Z.pow_pos_nonneg; lia). nia. }
  destruct (shr_fexp_at_least T m2 e1 loc_Exact HT Hm2 Hge2) as [Hm3 Hge3].
  destruct (shr_fexp Py.prec Py.emax m2 e1 loc_Exact) as [mrs2 e2].
  cbn [fst snd] in Hm3, Hge3.
  destruct (shr_m mrs2) as [|m|m]; [lia| |lia].
  now destruct (e2 <=? Py.emax - Py.prec).
Qed.

Lemma nearest_float_at_least T n :
  0 < T <= 2 ^ 53 -> T <= n ->
  match Py.nearest_float n with
  | S754_finite _ m e => T * 2 ^ Z.max 0 (- e) <= Zpos m * 2 ^ Z.max 0 e
  | S754_zero _ => False
  | _ => True
  end.
Proof.
  intros HT Hn. unfold Py.nearest_float, binary_normalize.
  destruct n as [|p|p]; [lia| |lia].
  unfold binary_round, shl_align. rewrite fexp_binary64.
  destruct (Z.max (Zpos (digits2_pos p) + 0 - 53) (-1074) - 0)
    as [|d|d] eqn:Ed;
    apply binary_round_aux_at_least; try assumption; try lia.
  - cbn. lia.
  - cbn. lia.
  - rewrite pos_iter_xO.
    rewrite (Z.max_r 0 (- _)), (Z.max_l 0 _), Z.pow_0_r, Z.mul_1_r by lia.
    replace (- Z.max (Zpos (digits2_pos p) + 0 - 53) (-1074)) with (Zpos d)
      by lia.
    assert (0 < 2 ^ Zpos d) by (apply Z.pow_pos_nonneg; lia). nia.
Qed.

Lemma product_at_least T mn en M ec :
  0 < T -> 0 < mn -> 0 < M -> ec < 0 ->
  T * 2 ^ Z.max 0 (- en) <= mn * 2 ^ Z.max 0 en ->
  2 ^ (- ec) <= T * M ->
  1 * 2 ^ Z.max 0 (- (en + ec)) <= mn * M * 2 ^ Z.max 0 (en + ec).
Proof.
  intros HT Hmn HM Hec Hn Hc.
  destruct (Z.le_gt_cases 0 (en + ec)) as [Hbig|Hsmall].
  - rewrite (Z.max_l 0 (- _)), (Z.max_r 0 (en + ec)), Z.pow_0_r by lia.
    assert (0 < 2 ^ (en + ec)) by (apply Z.pow_pos_nonneg; lia). nia.
  - rewrite (Z.max_r 0 (- _)), (Z.max_l 0 (en + ec)), Z.pow_0_r by lia.
    destruct (Z.le_gt_cases en 0) as [Hneg|Hpos].
    + rewrite (Z.max_r 0 (- en)), (Z.max_l 0 en), Z.pow_0_r in Hn by lia.
      replace (- (en + ec)) with (- en + - ec) by lia.
      rewrite Z.pow_add_r by lia.
      assert (0 < 2 ^ (- en)) by (apply Z.pow_pos_nonneg; lia). nia.
    + rewrite (Z.max_l 0 (- en)), (Z.max_r 0 en), Z.pow_0_r in Hn by lia.
      replace (- ec) with (- (en + ec) + en) in Hc by lia.
      rewrite Z.pow_add_r in Hc by lia.
      assert (0 < 2 ^ en) by (apply Z.pow_pos_nonneg; lia).
      assert (0 < 2 ^ (- (en + ec))) by (apply Z.pow_pos_nonneg; lia).
      apply Z.mul_le_mono_pos_r with (2 ^ en); [assumption|]. nia.
Qed.

Lemma int_of_float_at_least m e :
  1 * 2 ^ Z.max 0 (- e) <= Zpos m * 2 ^ Z.max 0 e ->
  exists q, Py.int_of_float (S754_finite false m e) = Ok q /\ 1 <= q.
Proof.
  intros H. eexists. split; [reflexivity|]. cbn [cond_Zopp].
  destruct (Z.le_gt_cases 0 e) as [Hpos|Hneg].
  - rewrite Z.shiftl_mul_pow2 by assumption.
    assert (0 < 2 ^ e) by (apply Z.pow_pos_nonneg; lia). nia.
  - rewrite (Z.max_r 0 (- e)), (Z.max_l 0 e), Z.pow_0_r in H by lia.
    rewrite Z.shiftl_div_pow2 by lia.
    apply Z.div_le_lower_bound; [apply Z.pow_pos_nonneg; lia|lia].
Qed.

(** [int(n * c) >= 1] as soon as [n >= T], for a float [c = M * 2^ec]
    with [T * c >= 1]. *)
Lemma int_mul_float_at_least T n M ec :
  0 < T <= 2 ^ 53 -> T <= n < 2 ^ 1023 ->
  Zpos (digits2_pos M) <= 53 -> ec <= -54 ->
  2 ^ (- ec) <= T * Zpos M ->
  exists q, Py.int_mul_float n (S754_finite false M ec) = Ok q /\ 1 <= q.
Proof.
  intros HT Hn HM Hec Hc.
  unfold Py.int_mul_float, Py.float_of_int.
  pose proof (nearest_float_at_least T n HT (proj1 Hn)) as Hfl.
  destruct (nearest_float_finite n) as [E|(mn & en & E & Hmn & Hen)];
    [lia|rewrite E in Hfl; contradiction|].
  rewrite E in Hfl |- *. cbn [SFmul xorb].
  assert (Hprod1 : 1 * 2 ^ Z.max 0 (- (en + ec)) <=
                   Zpos (mn * M) * 2 ^ Z.max 0 (en + ec)).
  { rewrite Pos2Z.inj_mul. apply (product_at_least T); lia. }
  pose proof (binary_round_aux_at_least 1 false (Zpos (mn * M)) (en + ec)
                loc_Exact) as Hprod.
  destruct (binary_round_aux_finite false (Zpos (mn * M)) (en + ec) loc_Exact)
    as [Ez|(mq & eq & Eq & _ & _)].
  - lia.
  - lia.
  - pose proof (digits2_pos_mul mn M). simpl Zdigits2. lia.
  - rewrite Ez in Hprod. exfalso. apply Hprod; [lia|lia|exact Hprod1].
  - rewrite Eq in Hprod |- *. apply int_of_float_at_least.
    apply Hprod; [lia|lia|exact Hprod1].
Qed.

(** Below the thresholds the products are evaluated one by one. *)
Lemma quota_below_threshold :
  forallb (fun k =>
    match sample_win (Z.of_nat k), sample_final (Z.of_nat k) with
    | Ok qw, Ok qf =>
        (qw =? Z.min 1 (Z.of_nat k / 10))
        && (qf =? Z.min 1 (Z.of_nat k * 2 / 10))
    | _, _ => false
    end) (seq 0 10) = true.
Proof. vm_compute. reflexivity. Qed.

(** The quotas in exact arithmetic: [min(1, floor(sample_size / 10))] for
    the win pool and [min(1, floor(sample_size * 2 / 10))] for the final
    pool. *)
Lemma quota_exact n :
  0 <= n < 2 ^ 1023 ->
  sample_win n = Ok (Z.min 1 (n / 10)) /\
  sample_final n = Ok (Z.min 1 (n * 2 / 10)).
Proof.
  intros Hn.
  destruct (Z.le_gt_cases 10 n) as [Hbig|Hsmall].
  - unfold sample_win, sample_final, quota. split.
    + change (nth 2 split_ratio S754_nan)
        with (S754_finite false 7205759403792794 (-56)).
      destruct (int_mul_float_at_least 10 n 7205759403792794 (-56))
        as (q & -> & Hq); try lia; try (vm_compute; discriminate).
      f_equal. assert (1 <= n / 10) by (apply Z.div_le_lower_bound; lia). lia.
    + change (nth 1 split_ratio S754_nan)
        with (S754_finite false 7205759403792794 (-55)).
      destruct (int_mul_float_at_least 5 n 7205759403792794 (-55))
        as (q & -> & Hq); try lia; try (vm_compute; discriminate).
      f_equal.
      assert (1 <= n * 2 / 10) by (apply Z.div_le_lower_bound; lia). lia.
  - pose proof quota_below_threshold as Hall.
    rewrite forallb_forall in Hall.
    specialize (Hall (Z.to_nat n)).
    rewrite Z2Nat.id in Hall by lia.
    destruct (sample_win n) as [qw|]; destruct (sample_final n) as [qf|];
      try (discriminate Hall; apply in_seq; lia).
    assert (Hin : In (Z.to_nat n) (seq 0 10)) by (apply in_seq; lia).
    apply Hall in Hin. apply andb_true_iff in Hin as [Hw%Z.eqb_eq Hf%Z.eqb_eq].
    now subst.
Qed.

(** ** Sampling *)

Section SamplingFacts.

Context {collab : Collaborators}.
Implicit Types (self : State) (acc : list Trajectory * Z).

Lemma set_trajectories_same self :
  set_trajectories (trajectories self) self = self.
Proof. now destruct self. Qed.

Lemma get_normal_trajectories_enough self :
  0 <= sample_size self <= Py.len (trajectories self) ->
  get_normal_trajectories self =
    (Ok (firstn (Z.to_nat (sample_size self)) (trajectories self)),
     set_trajectories
       (skipn (Z.to_nat (sample_size self)) (trajectories self)) self).
Proof.
  intros [H0 Hle].
  unfold get_normal_trajectories, bind, get, py_assert, modify, ret.
  cbn [app].
  rewrite len_slice_to_nonneg, Z.min_l, Z.eqb_refl by assumption.
  rewrite slice_to_nonneg, slice_from_nonneg by assumption.
  destruct (Z.ltb_spec 0 (Py.len (trajectories self))) as [Hpos|Hemp].
  - reflexivity.
  - assert (Hn : sample_size self = 0) by lia.
    rewrite Hn. cbn [Z.to_nat skipn]. now rewrite set_trajectories_same.
Qed.

(** A negative [count_of_batches * batch_size] is not a sample size: the
    slice [l[:n]] still has a length of at least zero, and the assertion
    fails. *)
Lemma get_normal_trajectories_negative self :
  sample_size self < 0 ->
  get_normal_trajectories self = (Raise AssertionError, self).
Proof.
  intros Hneg.
  unfold get_normal_trajectories, bind, get, py_assert, eval. cbn [app].
  destruct (Z.eqb_spec (Py.len (Py.slice_to (trajectories self)
                                            (sample_size self)))
                       (sample_size self)) as [Heq|Hne]; [|reflexivity].
  pose proof (len_nonneg (Py.slice_to (trajectories self) (sample_size self))).
  lia.
Qed.

Hypothesis shuffle_perm :
  forall w (l : list Trajectory), Permutation (fst (shuffle w l)) l.

Lemma slice_to_nil (k : Z) : Py.slice_to (@nil Trajectory) k = [].
Proof. unfold Py.slice_to. apply firstn_nil. Qed.

Lemma slice_from_nil (k : Z) : Py.slice_from (@nil Trajectory) k = [].
Proof. unfold Py.slice_from. apply skipn_nil. Qed.

Lemma len_zero_nil (l : list Trajectory) : (0 <? Py.len l) = false -> l = [].
Proof.
  intros H. apply Z.ltb_ge in H. destruct l; [reflexivity|].
  unfold Py.len in H. simpl length in H. lia.
Qed.

(** The draw from the win pool: the pool is shuffled to [sw], the draw
    is the slice [sw[:q]], and the pool keeps [sw] or, above 128
    elements, [sw[q:]]. *)
Lemma draw_win_spec n q acc self :
  exists sw self1,
    Permutation sw (win_trajectories self) /\
    draw_win n q acc self =
      (Ok (fst acc ++ Py.slice_to sw q,
           if 0 <? Py.len (win_trajectories self)
           then n - Py.len (Py.slice_to sw q) else snd acc), self1) /\
    win_trajectories self1 =
      (if 128 <? Py.len (win_trajectories self)
       then Py.slice_from sw q else sw) /\
    final_trajectories self1 = final_trajectories self /\
    trajectories self1 = trajectories self /\
    config self1 = config self.
Proof.
  unfold draw_win, bind, get, random_shuffle, modify, ret.
  destruct (0 <? Py.len (win_trajectories self)) eqn:Hne.
  - pose proof (shuffle_perm (world self) (win_trajectories self)) as Hp.
    destruct (shuffle (world self) (win_trajectories self)) as [sw w].
    cbn [fst] in Hp. cbn [win_trajectories set_win_trajectories].
    rewrite (len_permutation _ _ Hp).
    exists sw. destruct (128 <? Py.len (win_trajectories self));
      eexists; (split; [exact Hp|]); (split; [reflexivity|]);
      repeat split; reflexivity.
  - exists [], self. rewrite (len_zero_nil _ Hne).
    rewrite slice_to_nil, app_nil_r. cbn [Py.len length Z.of_nat Z.ltb Z.compare].
    repeat split; try reflexivity. now destruct acc.
Qed.

Lemma draw_final_spec q acc self :
  exists sf self1,
    Permutation sf (final_trajectories self) /\
    draw_final q acc self =
      (Ok (fst acc ++ Py.slice_to sf q,
           snd acc - Py.len (Py.slice_to sf q)), self1) /\
    final_trajectories self1 =
      (if 64 <? Py.len (final_trajectories self)
       then Py.slice_from sf q else sf) /\
    win_trajectories self1 = win_trajectories self /\
    trajectories self1 = trajectories self /\
    config self1 = config self.
Proof.
  unfold draw_final, bind, get, random_shuffle, modify, ret.
  destruct (0 <? Py.len (final_trajectories self)) eqn:Hne.
  - pose proof (shuffle_perm (world self) (final_trajectories self)) as Hp.
    destruct (shuffle (world self) (final_trajectories self)) as [sf w].
    cbn [fst] in Hp. cbn [final_trajectories set_final_trajectories].
    rewrite (len_permutation _ _ Hp).
    exists sf. destruct (64 <? Py.len (final_trajectories self));
      eexists; (split; [exact Hp|]); (split; [reflexivity|]);
      repeat split; reflexivity.
  - exists [], self. rewrite (len_zero_nil _ Hne).
    rewrite slice_to_nil, app_nil_r. cbn [Py.len length Z.of_nat Z.ltb Z.compare].
    rewrite Z.sub_0_r.
    repeat split; try reflexivity. now destruct acc.
Qed.

Lemma draw_ordinary_spec n acc self :
  exists so self1,
    Permutation so (trajectories self) /\
    (use_random_sample (config self) = false -> so = trajectories self) /\
    draw_ordinary n acc self =
      ((if Py.len (fst acc ++ Py.slice_to so (snd acc)) =? n
        then Ok (fst acc ++ Py.slice_to so (snd acc))
        else Raise AssertionError), self1) /\
    trajectories self1 =
      (if Py.len (fst acc ++ Py.slice_to so (snd acc)) =? n
       then Py.slice_from so (snd acc) else so) /\
    win_trajectories self1 = win_trajectories self /\
    final_trajectories self1 = final_trajectories self.
Proof.
  assert (Hcore : forall self0,
    exists self1,
      bind get (fun self =>
        let reduce_sample_size := snd acc in
        let trajectories_reduced :=
          Py.slice_to (trajectories self) reduce_sample_size in
        let trajectories0 := fst acc ++ trajectories_reduced in
        bind (py_assert (Py.len trajectories0 =? n)) (fun _ =>
        bind (if 0 <? Py.len (trajectories self)
              then modify (set_trajectories
                     (Py.slice_from (trajectories self) reduce_sample_size))
              else ret tt) (fun _ => ret trajectories0))) self0 =
      ((if Py.len (fst acc ++ Py.slice_to (trajectories self0) (snd acc)) =? n
        then Ok (fst acc ++ Py.slice_to (trajectories self0) (snd acc))
        else Raise AssertionError), self1) /\
      trajectories self1 =
        (if Py.len (fst acc ++ Py.slice_to (trajectories self0) (snd acc)) =? n
         then Py.slice_from (trajectories self0) (snd acc)
         else trajectories self0) /\
      win_trajectories self1 = win_trajectories self0 /\
      final_trajectories self1 = final_trajectories self0).
  { intros self0. unfold bind, get, py_assert, modify, ret, eval.
    destruct (Py.len (fst acc ++ Py.slice_to (trajectories self0) (snd acc))
              =? n).
    - destruct (0 <? Py.len (trajectories self0)) eqn:Hne;
        eexists; (split; [reflexivity|]); repeat split; try reflexivity.
      rewrite (len_zero_nil _ Hne). now rewrite slice_from_nil.
    - exists self0. repeat split; reflexivity. }
  unfold draw_ordinary.
  unfold bind at 1, get at 1. unfold bind at 1.
  destruct (use_random_sample (config self)) eqn:Hr.
  - unfold random_shuffle, modify.
    pose proof (shuffle_perm (world self) (trajectories self)) as Hp.
    destruct (shuffle (world self) (trajectories self)) as [so w].
    cbn [fst] in Hp.
    destruct (Hcore (set_trajectories so (set_world w self)))
      as (self1 & H1 & H2 & H3 & H4).
    exists so, self1. cbn [trajectories set_trajectories] in H1, H2.
    repeat split; try assumption. discriminate.
  - unfold ret. destruct (Hcore self) as (self1 & H1 & H2 & H3 & H4).
    exists (trajectories self), self1. repeat split; try assumption.
    apply Permutation_refl.
Qed.


(** Mixed sampling in one equation: with the pools shuffled to [sw], [sf]
    and [so], the batch is [sw[:qw] ++ sf[:qf] ++ so[:residual]]. *)
Lemma get_mixed_trajectories_spec self qw qf :
  sample_win (sample_size self) = Ok qw ->
  sample_final (sample_size self) = Ok qf ->
  exists sw sf so self',
    Permutation sw (win_trajectories self) /\
    Permutation sf (final_trajectories self) /\
    Permutation so (trajectories self) /\
    (use_random_sample (config self) = false -> so = trajectories self) /\
    let tw := Py.slice_to sw qw in
    let tf := Py.slice_to sf qf in
    let residual := sample_size self - Py.len tw - Py.len tf in
    let batch := (tw ++ tf) ++ Py.slice_to so residual in
    get_mixed_trajectories self =
      ((if Py.len batch =? sample_size self
        then Ok batch else Raise AssertionError), self') /\
    win_trajectories self' =
      (if 128 <? Py.len (win_trajectories self)
       then Py.slice_from sw qw else sw) /\
    final_trajectories self' =
      (if 64 <? Py.len (final_trajectories self)
       then Py.slice_from sf qf else sf) /\
    trajectories self' =
      (if Py.len batch =? sample_size self
       then Py.slice_from so residual else so).
Proof.
  intros Hqw Hqf.
  destruct (draw_win_spec (sample_size self) qw ([], sample_size self) self)
    as (sw & self1 & Hpw & Ew & Hw1 & Hf1 & Ho1 & Hc1).
  set (acc1 := (fst ([], sample_size self) ++ Py.slice_to sw qw,
                if 0 <? Py.len (win_trajectories self)
                then sample_size self - Py.len (Py.slice_to sw qw)
                else snd (@nil Trajectory, sample_size self))) in *.
  destruct (draw_final_spec qf acc1 self1)
    as (sf & self2 & Hpf & Ef & Hf2 & Hw2 & Ho2 & Hc2).
  set (acc2 := (fst acc1 ++ Py.slice_to sf qf,
                snd acc1 - Py.len (Py.slice_to sf qf))) in *.
  destruct (draw_ordinary_spec (sample_size self) acc2 self2)
    as (so & self3 & Hpo & Hid & Eo & Ho3 & Hw3 & Hf3).
  assert (Hres : snd acc1 = sample_size self - Py.len (Py.slice_to sw qw)).
  { subst acc1. cbn [snd].
    destruct (0 <? Py.len (win_trajectories self)) eqn:Hne; [reflexivity|].
    rewrite (len_zero_nil _ Hne) in Hpw.
    apply Permutation_sym, Permutation_nil in Hpw. subst sw.
    rewrite slice_to_nil. cbn. lia. }
  assert (Hacc2 : acc2 = (Py.slice_to sw qw ++ Py.slice_to sf qf,
                          sample_size self - Py.len (Py.slice_to sw qw)
                            - Py.len (Py.slice_to sf qf))).
  { subst acc2. now rewrite Hres. }
  rewrite Hacc2 in Eo, Ho3. cbn [fst snd] in Eo, Ho3.
  exists sw, sf, so, self3.
  rewrite Ho2, Ho1 in Hpo. rewrite Hc2, Hc1, Ho2, Ho1 in Hid.
  rewrite Hf1 in Hpf, Hf2.
  repeat (split; [assumption|]).
  cbv zeta. split; [|split; [|split]].
  - unfold get_mixed_trajectories.
    unfold bind at 1, get at 1. unfold bind at 1, eval at 1. rewrite Hqf.
    unfold bind at 1, eval at 1. rewrite Hqw.
    unfold bind at 1. rewrite Ew.
    unfold bind at 1. rewrite Ef. rewrite Hacc2. exact Eo.
  - now rewrite Hw3, Hw2, Hw1.
  - now rewrite Hf3, Hf2.
  - exact Ho3.
Qed.


Lemma get_mixed_trajectories_quotas self batch self' :
  get_mixed_trajectories self = (Ok batch, self') ->
  exists qw qf,
    sample_win (sample_size self) = Ok qw /\
    sample_final (sample_size self) = Ok qf.
Proof.
  unfold get_mixed_trajectories.
  unfold bind at 1, get at 1. unfold bind at 1, eval at 1.
  destruct (sample_final (sample_size self)) as [qf|e]; [|discriminate].
  unfold bind at 1, eval at 1.
  destruct (sample_win (sample_size self)) as [qw|e]; [|discriminate].
  intros _. now exists qw, qf.
Qed.

Lemma get_mixed_trajectories_no_quota self :
  (forall qw qf, sample_win (sample_size self) = Ok qw ->
                 sample_final (sample_size self) = Ok qf -> False) ->
  exists e, get_mixed_trajectories self = (Raise e, self).
Proof.
  intros Hno. unfold get_mixed_trajectories.
  unfold bind at 1, get at 1. unfold bind at 1, eval at 1.
  destruct (sample_final (sample_size self)) as [qf|e]; [|now exists e].
  unfold bind at 1, eval at 1.
  destruct (sample_win (sample_size self)) as [qw|e]; [|now exists e].
  destruct (Hno qw qf); reflexivity.
Qed.

End SamplingFacts.

(** ** The update step *)

Section UpdateFacts.

Context {collab : Collaborators}.
Implicit Types (self : State).

(** A loop whose body advances the step counter by [d] and keeps the
    configuration [cfg] advances the counter by [d] for each element. *)
Lemma for_each_steps {A} (cfg : Config) (body : A -> M unit) (d : Z) :
  (forall x self self',
     config self = cfg ->
     body x self = (Ok tt, self') ->
     learner_steps self' = learner_steps self + d /\
     config self' = cfg) ->
  forall (l : list A) self self',
    config self = cfg ->
    for_each l body self = (Ok tt, self') ->
    learner_steps self' = learner_steps self + Py.len l * d /\
    config self' = cfg.
Proof.
  intros Hbody l. induction l as [|x l IH]; intros self self' Hcfg E.
  - injection E as <-. unfold Py.len. cbn. split; [lia|assumption].
  - cbn [for_each] in E. unfold bind in E.
    destruct (body x self) as [[[]|e] self1] eqn:Ex; [|discriminate].
    destruct (Hbody _ _ _ Hcfg Ex) as [Hs Hc].
    destruct (IH _ _ Hc E) as [Hs' Hc'].
    split; [|assumption].
    rewrite Hs', Hs. unfold Py.len. cbn [length]. lia.
Qed.

Lemma for_each_ok {A} (body : A -> M unit) :
  (forall x self, exists self', body x self = (Ok tt, self')) ->
  forall (l : list A) self, exists self', for_each l body self = (Ok tt, self').
Proof.
  intros Hbody l. induction l as [|x l IH]; intros self.
  - now exists self.
  - cbn [for_each]. unfold bind.
    destruct (Hbody x self) as [self1 ->]. apply IH.
Qed.

Lemma len_range n : Py.len (Py.range n) = Z.max 0 n.
Proof. unfold Py.len, Py.range. rewrite length_map, length_seq. lia. Qed.

(** Logging the loss components neither raises nor moves the counter. *)
Lemma log_components (loss_dict : list (string * Scalar)) self :
  exists self',
    for_each loss_dict (fun '(i, k) =>
      bind get (fun self =>
        add_scalar (String.append "learner/" i) k (learner_steps self)))
      self = (Ok tt, self') /\
    learner_steps self' = learner_steps self /\
    config self' = config self.
Proof.
  revert self. induction loss_dict as [|[i k] l IH]; intros self.
  - now exists self.
  - cbn [for_each]. unfold bind at 1. unfold bind at 1, get at 1.
    unfold add_scalar at 1, modify at 1.
    destruct (IH (set_writer
                    (writer self ++
                     [(String.append "learner/" i, k, learner_steps self)])
                    self)) as (self' & E & Hs & Hc).
    exists self'. now rewrite E.
Qed.

Lemma update_batch_steps ts batch_id self self' :
  update_batch ts batch_id self = (Ok tt, self') ->
  learner_steps self' = learner_steps self + batch_size * sequence_length /\
  config self' = config self.
Proof.
  unfold update_batch. unfold bind at 1, get at 1.
  unfold bind at 1, eval at 1.
  destruct (loss_function _ _ _ _ _ _) as [[loss loss_dict]|e];
    [|discriminate].
  unfold bind at 1.
  destruct (log_components loss_dict self) as (self1 & -> & Hs1 & Hc1).
  unfold bind at 1, get at 1. unfold bind at 1, eval at 1.
  destruct (optimizer_step _ _ _) as [[optimizer' model']|e]; [|discriminate].
  unfold bind, get, modify, add_scalar. intros [= <-].
  cbn. rewrite Hs1, Hc1. now split.
Qed.

Lemma update_batch_ok ts batch_id self :
  (forall net steps ts a b c, exists v, loss_function net steps ts a b c = Ok v) ->
  (forall opt net loss, exists v, optimizer_step opt net loss = Ok v) ->
  exists self', update_batch ts batch_id self = (Ok tt, self').
Proof.
  intros Hloss Hopt.
  unfold update_batch. unfold bind at 1, get at 1.
  unfold bind at 1, eval at 1.
  match goal with |- context [loss_function ?a ?b ?c ?d ?e ?f] =>
    destruct (Hloss a b c d e f) as [[loss loss_dict] ->] end.
  unfold bind at 1.
  destruct (log_components loss_dict self) as (self1 & -> & Hs1 & Hc1).
  unfold bind at 1, get at 1. unfold bind at 1, eval at 1.
  destruct (Hopt (optimizer self1) (learner_model self1) loss)
    as [[optimizer' model'] ->].
  unfold bind, get, modify, add_scalar. now eexists.
Qed.


Lemma get_normal_trajectories_frame self r self' :
  get_normal_trajectories self = (r, self') ->
  learner_steps self' = learner_steps self /\ config self' = config self.
Proof.
  unfold get_normal_trajectories, bind, get, py_assert, modify, ret, eval.
  destruct (_ =? _); [|now intros [= <- <-]].
  destruct (0 <? _); now intros [= <- <-].
Qed.

Lemma update_parameters_steps self self' :
  is_rl_training (config self) = true ->
  update_parameters self = (Ok tt, self') ->
  learner_steps self' =
    learner_steps self
    + Z.max 0 (num_epochs (config self))
      * (Z.max 0 (count_of_batches (config self))
         * (batch_size * sequence_length)).
Proof.
  intros Htr. unfold update_parameters.
  unfold bind at 1, get at 1. rewrite Htr. cbn [negb].
  unfold bind at 1.
  destruct (get_normal_trajectories self) as [[ts|e] self1] eqn:En;
    [|discriminate].
  destruct (get_normal_trajectories_frame _ _ _ En) as [Hs1 Hc1].
  unfold bind at 1, modify at 1. unfold bind at 1.
  match goal with |- context [for_each ?l ?body ?s] =>
    destruct (for_each l body s) as [[[]|e] self2] eqn:Eloop;
      [|discriminate];
    apply (for_each_steps (config self) body
             (Z.max 0 (count_of_batches (config self))
              * (batch_size * sequence_length))) in Eloop
  end.
  - destruct Eloop as [Hs2 Hc2]. cbn [learner_steps set_learner_model] in Hs2.
    rewrite len_range in Hs2.
    unfold bind at 1, get at 1. unfold bind at 1.
    destruct (torch_save _ _); [discriminate|].
    unfold modify. intros [= <-]. cbn [learner_steps set_learner_model
                                         set_checkpoint].
    rewrite Hs2, Hs1. reflexivity.
  - intros ep_id s s' Hcfg. unfold bind at 1, get at 1. rewrite Hcfg.
    intros Ein.
    apply (for_each_steps (config self) _ (batch_size * sequence_length))
      in Ein.
    + now rewrite len_range in Ein.
    + intros batch_id s0 s0' Hcfg0 Eb.
      destruct (update_batch_steps _ _ _ _ Eb) as [Hs Hc]. split; congruence.
    + assumption.
  - exact Hc1.
Qed.

Lemma update_parameters_ok self :
  (forall net steps ts a b c,
     exists v, loss_function net steps ts a b c = Ok v) ->
  (forall opt net loss, exists v, optimizer_step opt net loss = Ok v) ->
  (forall net w, torch_save net w = None) ->
  0 <= sample_size self <= Py.len (trajectories self) ->
  exists self', update_parameters self = (Ok tt, self').
Proof.
  intros Hloss Hopt Hsave Hpool. unfold update_parameters.
  unfold bind at 1, get at 1.
  destruct (negb (is_rl_training (config self))); [now eexists|].
  unfold bind at 1. rewrite (get_normal_trajectories_enough self Hpool).
  unfold bind at 1, modify at 1. unfold bind at 1.
  match goal with |- context [for_each ?l ?body ?s] =>
    assert (Hbody : forall x self0,
              exists self', body x self0 = (Ok tt, self'));
      [|destruct (for_each_ok body Hbody l s) as [self2 ->]]
  end.
  - intros ep_id s. unfold bind at 1, get at 1.
    apply for_each_ok. intros batch_id s0.
    now apply update_batch_ok.
  - unfold bind at 1, get at 1. unfold bind at 1. rewrite Hsave.
    unfold modify. now eexists.
Qed.

End UpdateFacts.

(** ** The run loop *)

Section RunFacts.

Context {collab : Collaborators}.
Implicit Types (self : State) (trace : list (result unit)).

(** In the record of a finished loop an exception can only be the last
    entry. *)
Lemma run_loop_raise_last fuel : forall start_time self trace self',
  run_loop fuel start_time self = Some (trace, self') ->
  forall i e, nth_error trace i = Some (Raise e) -> S i = length trace.
Proof.
  induction fuel as [|fuel IH]; intros start_time self trace self' E;
    [discriminate|].
  cbn [run_loop] in E.
  destruct (time (world self)) as [now w].
  destruct (negb _).
  - destruct (iteration (set_world w self)) as [[[]|e0] self1].
    + destruct (run_loop fuel start_time self1) as [[trace1 self2]|] eqn:E1;
        [|discriminate].
      injection E as <- <-. intros [|i] e Hi; [discriminate|].
      cbn [nth_error] in Hi. cbn [length]. f_equal. eapply IH; eassumption.
    + injection E as <- <-. intros [|[|i]] e Hi; try discriminate.
      reflexivity.
  - injection E as <- <-. intros [|i] e Hi; discriminate.
Qed.

(** From the loop head reached after [k] quiet iterations the loop goes
    on as a fresh loop would, [k] turns later. *)
Lemma run_loop_from_head start_time self k self_k :
  loop_head start_time self k self_k ->
  forall fuel,
    run_loop (k + fuel) start_time self =
      match run_loop fuel start_time self_k with
      | Some (trace, self') => Some (repeat (Ok tt) k ++ trace, self')
      | None => None
      end.
Proof.
  induction 1 as [|k self_k now w self1 Hhead IH Htime Hlive Hiter];
    intros fuel.
  - cbn. now destruct (run_loop fuel start_time self) as [[trace self']|].
  - replace (S k + fuel)%nat with (k + S fuel)%nat by lia.
    rewrite IH. cbn [run_loop]. rewrite Htime.
    cbn [config set_world]. rewrite Hlive. cbn [negb]. rewrite Hiter.
    destruct (run_loop fuel start_time self1) as [[trace self']|];
      [|reflexivity].
    do 2 f_equal.
    change (Ok tt :: trace) with ([Ok tt] ++ trace).
    rewrite app_assoc. f_equal.
    change [@Ok unit tt] with (repeat (@Ok unit tt) 1).
    rewrite <- repeat_app. f_equal. lia.
Qed.

Lemma run_loop_break start_time self k self_k now w e self_e fuel :
  loop_head start_time self k self_k ->
  time (world self_k) = (now, w) ->
  Qle_bool (max_time_for_training (config self_k)) (now - start_time)%Q
    = false ->
  iteration (set_world w self_k) = (Raise e, self_e) ->
  (k < fuel)%nat ->
  run_loop fuel start_time self = Some (repeat (Ok tt) k ++ [Raise e], self_e).
Proof.
  intros Hhead Htime Hlive Hiter Hfuel.
  replace fuel with (k + S (fuel - S k))%nat by lia.
  rewrite (run_loop_from_head _ _ _ _ Hhead). cbn [run_loop].
  rewrite Htime. cbn [config set_world]. rewrite Hlive. cbn [negb].
  now rewrite Hiter.
Qed.

Lemma run_loop_expire start_time self k self_k now w fuel :
  loop_head start_time self k self_k ->
  time (world self_k) = (now, w) ->
  Qle_bool (max_time_for_training (config self_k)) (now - start_time)%Q
    = true ->
  (k < fuel)%nat ->
  run_loop fuel start_time self =
    Some (repeat (Ok tt) k, set_world w self_k).
Proof.
  intros Hhead Htime Hdead Hfuel.
  replace fuel with (k + S (fuel - S k))%nat by lia.
  rewrite (run_loop_from_head _ _ _ _ Hhead). cbn [run_loop].
  rewrite Htime. cbn [config set_world]. rewrite Hdead. cbn [negb].
  now rewrite app_nil_r.
Qed.

Lemma iteration_propagates self e self' :
  buffer_size (config self) * count_of_batches (config self) * batch_size
    <= Py.len (trajectories self) ->
  update_parameters self = (Raise e, self') ->
  iteration self = (Raise e, self').
Proof.
  intros Hfull E. unfold iteration. unfold bind at 1, get at 1.
  apply Z.leb_le in Hfull. rewrite Hfull. unfold bind. now rewrite E.
Qed.

End RunFacts.

(** * The properties of the specification *)

Lemma demo_shuffle_perm bs sl fail_at w (l : list nat) :
  Permutation (fst (@shuffle (Demo.collab bs sl fail_at) w l)) l.
Proof. apply Permutation_sym, Permutation_rev. Qed.

(** C1: the quotas the code reserves are [min(1, int(sample_size * r))],
    not the [max(1, floor(sample_size * r))] of the specification: for
    every sample size that is a count a float can hold, the win quota is
    [min(1, floor(sample_size / 10))] and the final quota is
    [min(1, floor(sample_size * 2 / 10))].  The final quota differs from
    the specification's below 5 and from 10 on, the win quota below 10
    and from 20 on. *)
Theorem quotas_capped_at_one (n : Z) :
  0 <= n < 2 ^ 1023 ->
  sample_win n = Ok (Z.min 1 (n / 10)) /\
  sample_final n = Ok (Z.min 1 (n * 2 / 10)) /\
  (n < 5 \/ 10 <= n -> sample_final n <> Ok (spec_sample_final n)) /\
  (n < 10 \/ 20 <= n -> sample_win n <> Ok (spec_sample_win n)).
Proof.
  intros Hn. destruct (quota_exact n Hn) as [Hw Hf].
  split; [assumption|]. split; [assumption|].
  rewrite Hw, Hf. unfold spec_sample_win, spec_sample_final.
  split; intros Hcase [= E].
  - destruct Hcase as [Hlow|Hhigh].
    + assert (n * 2 / 10 < 1) by (apply Z.div_lt_upper_bound; lia). lia.
    + assert (2 <= n * 2 / 10) by (apply Z.div_le_lower_bound; lia). lia.
  - destruct Hcase as [Hlow|Hhigh].
    + assert (n / 10 < 1) by (apply Z.div_lt_upper_bound; lia). lia.
    + assert (2 <= n / 10) by (apply Z.div_le_lower_bound; lia). lia.
Qed.

Lemma quotas_capped_at_one_witness :
  sample_final 10 = Ok 1 /\ spec_sample_final 10 = 2 /\
  sample_final 10 <> Ok (spec_sample_final 10).
Proof.
  destruct (quotas_capped_at_one 10) as (_ & Hf & Hne & _).
  - vm_compute. split; [discriminate|reflexivity].
  - split; [exact Hf|]. split; [reflexivity|]. apply Hne. now right.
Defined.

(** C2: with a sample size of 10, a win pool of 5, a final pool of 3 and
    an ordinary pool of 100, both quotas are 1, so mixed sampling draws
    one win trajectory, one final trajectory and the remaining 8 (the
    specification has 2 final ones and 7) from the ordinary pool; the
    batch has length 10. *)
Theorem mixed_scenario_draws_one_one_eight {collab : Collaborators}
    (shuffle_perm : forall w (l : list Trajectory),
       Permutation (fst (shuffle w l)) l)
    (self : State) :
  sample_size self = 10 ->
  Py.len (win_trajectories self) = 5 ->
  Py.len (final_trajectories self) = 3 ->
  Py.len (trajectories self) = 100 ->
  sample_win 10 = Ok 1 /\ sample_final 10 = Ok 1 /\
  exists from_win from_final from_ordinary self',
    get_mixed_trajectories self =
      (Ok ((from_win ++ from_final) ++ from_ordinary), self') /\
    Py.len from_win = 1 /\ Py.len from_final = 1 /\
    Py.len from_ordinary = 8 /\
    Py.len ((from_win ++ from_final) ++ from_ordinary) = 10 /\
    Permutation (trajectories self) (from_ordinary ++ trajectories self').
Proof.
  intros Hn Hw Hf Ho.
  assert (Hqw : sample_win 10 = Ok 1) by (vm_compute; reflexivity).
  assert (Hqf : sample_final 10 = Ok 1) by (vm_compute; reflexivity).
  split; [assumption|]. split; [assumption|].
  rewrite <- Hn in Hqw, Hqf.
  destruct (get_mixed_trajectories_spec shuffle_perm self 1 1 Hqw Hqf)
    as (sw & sf & so & self' & Hpw & Hpf & Hpo & _ & E & _ & _ & Eo).
  cbv zeta in E, Eo.
  assert (Lw : Py.len (Py.slice_to sw 1) = 1)
    by (rewrite len_slice_to_nonneg, (len_permutation _ _ Hpw) by lia; lia).
  assert (Lf : Py.len (Py.slice_to sf 1) = 1)
    by (rewrite len_slice_to_nonneg, (len_permutation _ _ Hpf) by lia; lia).
  rewrite Lw, Lf, Hn in E, Eo. change (10 - 1 - 1) with 8 in E, Eo.
  assert (Lo : Py.len (Py.slice_to so 8) = 8)
    by (rewrite len_slice_to_nonneg, (len_permutation _ _ Hpo) by lia; lia).
  assert (Lb : Py.len ((Py.slice_to sw 1 ++ Py.slice_to sf 1)
                       ++ Py.slice_to so 8) = 10)
    by (rewrite !len_app; lia).
  rewrite Lb in E, Eo. cbn [Z.eqb Pos.eqb] in E, Eo.
  exists (Py.slice_to sw 1), (Py.slice_to sf 1), (Py.slice_to so 8), self'.
  repeat (split; [assumption|]).
  rewrite Eo, slice_to_from. now apply Permutation_sym.
Qed.

Lemma mixed_scenario_draws_one_one_eight_witness :
  exists batch self',
    get_mixed_trajectories Demo.mixed_learner = (Ok batch, self') /\
    Py.len batch = 10 /\ Py.len (trajectories self') = 92.
Proof.
  destruct (mixed_scenario_draws_one_one_eight
              (demo_shuffle_perm 10 1 None) Demo.mixed_learner)
    as (_ & _ & fw & ff & fo & self' & E & _ & _ & Lo & Lb & Hp);
    try reflexivity.
  exists ((fw ++ ff) ++ fo), self'. split; [exact E|]. split; [exact Lb|].
  apply len_permutation in Hp. rewrite len_app in Hp.
  change (Py.len (trajectories Demo.mixed_learner)) with 100 in Hp. lia.
Defined.

(** C3: when the ordinary pool holds at least [sample_size] trajectories
    (a count, so not negative), uniform sampling returns the first
    [sample_size] of them and leaves the others in the pool, in their
    order; nothing else changes. *)
Theorem uniform_sampling_takes_prefix {collab : Collaborators}
    (self : State) :
  0 <= sample_size self <= Py.len (trajectories self) ->
  get_normal_trajectories self =
    (Ok (firstn (Z.to_nat (sample_size self)) (trajectories self)),
     set_trajectories
       (skipn (Z.to_nat (sample_size self)) (trajectories self)) self).
Proof. apply get_normal_trajectories_enough. Qed.

Lemma uniform_sampling_takes_prefix_witness :
  get_normal_trajectories Demo.uniform_learner =
    (Ok [0; 1; 2; 3]%nat,
     @set_trajectories (Demo.collab 2 4 None) [4; 5]%nat
       Demo.uniform_learner).
Proof.
  apply (uniform_sampling_takes_prefix Demo.uniform_learner).
  vm_compute. split; discriminate.
Defined.

(** C4: for a sample size that is a count a float can hold, the residual
    (the sample size minus what the win and final pools supply within
    their quotas) is not negative; when the ordinary pool covers the
    residual, mixed sampling returns a batch of exactly [sample_size]
    trajectories, and when it does not, the call ends in
    [AssertionError] and returns no batch. *)
Theorem mixed_sampling_batch_length {collab : Collaborators}
    (shuffle_perm : forall w (l : list Trajectory),
       Permutation (fst (shuffle w l)) l)
    (self : State) :
  0 <= sample_size self < 2 ^ 1023 ->
  let from_win :=
    Z.min (Z.min 1 (sample_size self / 10))
          (Py.len (win_trajectories self)) in
  let from_final :=
    Z.min (Z.min 1 (sample_size self * 2 / 10))
          (Py.len (final_trajectories self)) in
  let residual := sample_size self - from_win - from_final in
  0 <= residual /\
  (residual <= Py.len (trajectories self) ->
   exists batch self',
     get_mixed_trajectories self = (Ok batch, self') /\
     Py.len batch = sample_size self) /\
  (Py.len (trajectories self) < residual ->
   exists self',
     get_mixed_trajectories self = (Raise AssertionError, self')).
Proof.
  intros Hn. destruct (quota_exact (sample_size self) Hn) as [Hqw Hqf].
  set (qw := Z.min 1 (sample_size self / 10)) in *.
  set (qf := Z.min 1 (sample_size self * 2 / 10)) in *.
  assert (Hw : 0 <= qw <= 1).
  { assert (0 <= sample_size self / 10) by (apply Z.div_pos; lia).
    subst qw. lia. }
  assert (Hf : 0 <= qf <= 1).
  { assert (0 <= sample_size self * 2 / 10) by (apply Z.div_pos; lia).
    subst qf. lia. }
  assert (Hsum : qw + qf <= sample_size self).
  { destruct (Z.le_gt_cases 2 (sample_size self)) as [|Hsmall]; [lia|].
    assert (sample_size self / 10 = 0) by (apply Z.div_small; lia).
    assert (sample_size self * 2 / 10 = 0) by (apply Z.div_small; lia).
    subst qw qf. lia. }
  destruct (get_mixed_trajectories_spec shuffle_perm self qw qf Hqw Hqf)
    as (sw & sf & so & self' & Hpw & Hpf & Hpo & _ & E & _).
  cbv zeta in E |- *.
  rewrite !len_app, !len_slice_to_nonneg in E by lia.
  rewrite (len_permutation _ _ Hpw), (len_permutation _ _ Hpf) in E.
  pose proof (len_nonneg (win_trajectories self)) as Hlw.
  pose proof (len_nonneg (final_trajectories self)) as Hlf.
  pose proof (len_nonneg (trajectories self)) as Hlo.
  set (residual := sample_size self
                   - Z.min qw (Py.len (win_trajectories self))
                   - Z.min qf (Py.len (final_trajectories self))) in *.
  assert (Hres : 0 <= residual) by (subst residual; lia).
  split; [assumption|].
  rewrite ?len_slice_to_nonneg in E by assumption.
  rewrite (len_permutation _ _ Hpo) in E.
  split; intros Hcmp.
  - destruct (Z.eqb_spec
      (Z.min qw (Py.len (win_trajectories self))
       + Z.min qf (Py.len (final_trajectories self))
       + Z.min residual (Py.len (trajectories self))) (sample_size self))
      as [Heq|Hne]; [|subst residual; lia].
    eexists _, self'. split; [exact E|].
    rewrite !len_app, !len_slice_to_nonneg by lia.
    rewrite (len_permutation _ _ Hpw), (len_permutation _ _ Hpf),
      (len_permutation _ _ Hpo).
    exact Heq.
  - destruct (Z.eqb_spec
      (Z.min qw (Py.len (win_trajectories self))
       + Z.min qf (Py.len (final_trajectories self))
       + Z.min residual (Py.len (trajectories self))) (sample_size self))
      as [Heq|Hne]; [subst residual; lia|].
    now exists self'.
Qed.

Lemma mixed_sampling_batch_length_witness :
  exists batch self',
    get_mixed_trajectories Demo.mixed_learner = (Ok batch, self') /\
    Py.len batch = 10.
Proof.
  destruct (mixed_sampling_batch_length
              (demo_shuffle_perm 10 1 None) Demo.mixed_learner)
    as (_ & Hfull & _).
  - vm_compute. split; [discriminate|reflexivity].
  - apply Hfull. vm_compute. discriminate.
Defined.

(** C5, as stated, fails: a win trajectory that mixed sampling puts in a
    batch stays in a win pool of at most 128 elements, and the next call
    reads it again; batch and pools afterwards hold more than the pools
    did before. *)
Lemma mixed_sampling_reads_win_twice :
  exists b1 s1 b2 s2,
    get_mixed_trajectories Demo.scarce_learner = (Ok b1, s1) /\
    get_mixed_trajectories s1 = (Ok b2, s2) /\
    In 2000%nat b1 /\ In 2000%nat (win_trajectories s1) /\
    In 2000%nat b2 /\
    ~ Permutation (pools Demo.scarce_learner) (b1 ++ pools s1).
Proof.
  eexists _, _, _, _.
  split; [vm_compute; reflexivity|].
  split; [vm_compute; reflexivity|].
  split; [now left|]. split; [now left|]. split; [now left|].
  intros H. apply Permutation_length in H. vm_compute in H. discriminate.
Qed.

(** C5, amended: uniform sampling removes from the ordinary pool the
    trajectories it returns, and mixed sampling removes from the ordinary
    pool those it takes there; the win (final) trajectories of a mixed
    batch are removed from their pool only when that pool held more than
    128 (64) elements, and otherwise stay in it, at the head of the
    shuffled pool. *)
Theorem sampling_removes_ordinary_and_trims_above_threshold
    {collab : Collaborators}
    (shuffle_perm : forall w (l : list Trajectory),
       Permutation (fst (shuffle w l)) l)
    (self : State) :
  (forall batch self',
     get_normal_trajectories self = (Ok batch, self') ->
     trajectories self = batch ++ trajectories self' /\
     win_trajectories self' = win_trajectories self /\
     final_trajectories self' = final_trajectories self) /\
  (forall batch self',
     get_mixed_trajectories self = (Ok batch, self') ->
     exists from_win from_final from_ordinary,
       batch = (from_win ++ from_final) ++ from_ordinary /\
       Permutation (trajectories self)
                   (from_ordinary ++ trajectories self') /\
       (if 128 <? Py.len (win_trajectories self)
        then Permutation (win_trajectories self)
                         (from_win ++ win_trajectories self')
        else Permutation (win_trajectories self) (win_trajectories self') /\
             exists rest, win_trajectories self' = from_win ++ rest) /\
       (if 64 <? Py.len (final_trajectories self)
        then Permutation (final_trajectories self)
                         (from_final ++ final_trajectories self')
        else Permutation (final_trajectories self)
                         (final_trajectories self') /\
             exists rest, final_trajectories self' = from_final ++ rest)).
Proof.
  split.
  - intros batch self'.
    unfold get_normal_trajectories, bind, get, py_assert, modify, ret, eval.
    cbn [app].
    destruct (Py.len (Py.slice_to (trajectories self) (sample_size self))
              =? sample_size self); [|discriminate].
    destruct (0 <? Py.len (trajectories self)) eqn:Hne;
      intros [= <- <-]; cbn [trajectories win_trajectories final_trajectories
                               set_trajectories].
    + now rewrite slice_to_from.
    + rewrite (len_zero_nil _ Hne). now rewrite slice_to_nil.
  - intros batch self' E.
    destruct (get_mixed_trajectories_quotas _ _ _ E) as (qw & qf & Hqw & Hqf).
    destruct (get_mixed_trajectories_spec shuffle_perm self qw qf Hqw Hqf)
      as (sw & sf & so & self1 & Hpw & Hpf & Hpo & _ & E1 & Ew & Ef & Eo).
    cbv zeta in E1, Eo. rewrite E in E1.
    destruct (Py.len _ =? sample_size self); [|discriminate].
    injection E1 as -> <-.
    eexists _, _, _. split; [reflexivity|]. split; [|split].
    + rewrite Eo, slice_to_from. now apply Permutation_sym.
    + rewrite Ew. destruct (128 <? Py.len (win_trajectories self)).
      * rewrite slice_to_from. now apply Permutation_sym.
      * split; [now apply Permutation_sym|].
        exists (Py.slice_from sw qw). now rewrite slice_to_from.
    + rewrite Ef. destruct (64 <? Py.len (final_trajectories self)).
      * rewrite slice_to_from. now apply Permutation_sym.
      * split; [now apply Permutation_sym|].
        exists (Py.slice_from sf qf). now rewrite slice_to_from.
Qed.

Lemma sampling_removes_ordinary_and_trims_above_threshold_witness :
  exists batch self' (from_win rest : list nat),
    get_mixed_trajectories Demo.scarce_learner = (Ok batch, self') /\
    win_trajectories self' = from_win ++ rest /\
    Py.len (trajectories self') = 21.
Proof.
  destruct (sampling_removes_ordinary_and_trims_above_threshold
              (demo_shuffle_perm 10 1 None) Demo.scarce_learner)
    as [_ Hmixed].
  destruct (get_mixed_trajectories Demo.scarce_learner)
    as [[batch|e] self'] eqn:E; [|vm_compute in E; discriminate].
  destruct (Hmixed batch self' eq_refl) as (fw & ff & fo & _ & _ & Hw & _).
  change (128 <? Py.len (win_trajectories Demo.scarce_learner))
    with false in Hw.
  destruct Hw as (_ & rest & Hw).
  exists batch, self', fw, rest. split; [reflexivity|]. split; [exact Hw|].
  vm_compute in E. now injection E as _ <-.
Defined.



(** C7: every mini-batch that is processed advances the step counter by
    [batch_size * sequence_length], and a call of [update_parameters]
    that completes with training enabled advances it by
    [num_epochs * count_of_batches * batch_size * sequence_length];
    mini-batches are processed and the call completes whenever the loss
    computation, the optimizer and the checkpoint write do not raise and
    the pool holds a sample. *)
Theorem step_counter_advance {collab : Collaborators} :
  (forall ts batch_id self self',
     update_batch ts batch_id self = (Ok tt, self') ->
     learner_steps self' =
       learner_steps self + batch_size * sequence_length) /\
  (forall self self',
     is_rl_training (config self) = true ->
     0 <= num_epochs (config self) ->
     0 <= count_of_batches (config self) ->
     update_parameters self = (Ok tt, self') ->
     learner_steps self' =
       learner_steps self
       + num_epochs (config self) * count_of_batches (config self)
         * batch_size * sequence_length) /\
  (forall self,
     (forall net steps ts a b c,
        exists v, loss_function net steps ts a b c = Ok v) ->
     (forall opt net loss, exists v, optimizer_step opt net loss = Ok v) ->
     (forall net w, torch_save net w = None) ->
     0 <= sample_size self <= Py.len (trajectories self) ->
     (forall ts batch_id self0,
        exists self', update_batch ts batch_id self0 = (Ok tt, self')) /\
     exists self', update_parameters self = (Ok tt, self')).
Proof.
  split; [|split].
  - intros ts batch_id self self' E. now apply update_batch_steps in E.
  - intros self self' Htr He Hc E.
    rewrite (update_parameters_steps self self' Htr E).
    rewrite !Z.max_r by assumption. ring.
  - intros self Hloss Hopt Hsave Hpool. split.
    + intros ts batch_id self0. now apply update_batch_ok.
    + now apply update_parameters_ok.
Qed.

Lemma step_counter_advance_witness :
  exists self',
    update_parameters Demo.uniform_learner = (Ok tt, self') /\
    learner_steps self' = 0 + 2 * 2 * 2 * 4.
Proof.
  destruct (@step_counter_advance (Demo.collab 2 4 None))
    as (_ & Hcall & Hok).
  destruct (Hok Demo.uniform_learner) as [_ [self' E]].
  - intros. now eexists.
  - intros. now eexists.
  - reflexivity.
  - vm_compute. split; discriminate.
  - exists self'. split; [exact E|].
    apply (Hcall Demo.uniform_learner self');
      [reflexivity|discriminate|discriminate|exact E].
Defined.

(** C8: with training disabled [update_parameters] returns at once and
    leaves the whole state as it was: pools, step counter, checkpoint,
    network, optimizer, metrics and generator. *)
Theorem update_parameters_disabled_is_noop {collab : Collaborators}
    (self : State) :
  is_rl_training (config self) = false ->
  update_parameters self = (Ok tt, self).
Proof.
  intros H. unfold update_parameters, bind, get. now rewrite H.
Qed.

Lemma update_parameters_disabled_is_noop_witness :
  update_parameters Demo.idle_learner = (Ok tt, Demo.idle_learner).
Proof.
  apply (update_parameters_disabled_is_noop Demo.idle_learner). reflexivity.
Defined.

(** C9: every run that ends leaves [is_running] false, and in its record
    an exception can only be the last iteration; an exception of the
    update step is an exception of the iteration; and when the iteration
    after [k] quiet ones raises, the run ends there, after [k + 1]
    iterations, in the state the exception left, with [is_running]
    false, as it does with [k] iterations when the time to live has
    expired. *)
Theorem run_stops_on_exception_and_clears_flag
    {collab : Collaborators} :
  (forall fuel self trace self',
     run fuel self = Some (trace, self') ->
     is_running self' = false /\
     forall i e, nth_error trace i = Some (Raise e) -> S i = length trace) /\
  (forall self e self',
     buffer_size (config self) * count_of_batches (config self) * batch_size
       <= Py.len (trajectories self) ->
     update_parameters self = (Raise e, self') ->
     iteration self = (Raise e, self')) /\
  (forall self start_time w0 k self_k now w e self_e fuel,
     time (world self) = (start_time, w0) ->
     loop_head start_time (set_is_running true (set_world w0 self)) k self_k ->
     time (world self_k) = (now, w) ->
     Qle_bool (max_time_for_training (config self_k)) (now - start_time)%Q
       = false ->
     iteration (set_world w self_k) = (Raise e, self_e) ->
     (k < fuel)%nat ->
     run fuel self =
       Some (repeat (Ok tt) k ++ [Raise e], set_is_running false self_e)) /\
  (forall self start_time w0 k self_k now w fuel,
     time (world self) = (start_time, w0) ->
     loop_head start_time (set_is_running true (set_world w0 self)) k self_k ->
     time (world self_k) = (now, w) ->
     Qle_bool (max_time_for_training (config self_k)) (now - start_time)%Q
       = true ->
     (k < fuel)%nat ->
     run fuel self =
       Some (repeat (Ok tt) k, set_is_running false (set_world w self_k))).
Proof.
  split; [|split; [|split]].
  - intros fuel self trace self'. unfold run.
    destruct (time (world self)) as [start_time w0].
    destruct (run_loop fuel start_time _) as [[trace1 self1]|] eqn:E;
      [|discriminate].
    intros [= <- <-]. split; [reflexivity|].
    now apply (run_loop_raise_last _ _ _ _ _ E).
  - intros self e self'. apply iteration_propagates.
  - intros self start_time w0 k self_k now w e self_e fuel
      Hstart Hhead Htime Hlive Hiter Hfuel.
    unfold run. rewrite Hstart.
    now rewrite (run_loop_break _ _ _ _ _ _ _ _ _ Hhead Htime Hlive Hiter Hfuel).
  - intros self start_time w0 k self_k now w fuel
      Hstart Hhead Htime Hdead Hfuel.
    unfold run. rewrite Hstart.
    now rewrite (run_loop_expire _ _ _ _ _ _ _ Hhead Htime Hdead Hfuel).
Qed.

Lemma run_stops_on_exception_and_clears_flag_witness :
  exists self',
    run 5 Demo.failing_learner =
      Some ([Ok tt; Raise (ExternalError "loss")], self') /\
    is_running self' = false /\
    learner_steps self' = 8 /\
    Py.len (trajectories self') = 6.
Proof.
  destruct (@run_stops_on_exception_and_clears_flag (Demo.collab 2 4 (Some 8)))
    as (_ & _ & Hbreak & _).
  eexists. split; [|split; [|split]].
  - eapply (Hbreak Demo.failing_learner 0%Q 1%nat 1%nat) with (fuel := 5%nat).
    + reflexivity.
    + eapply loop_head_next.
      * apply loop_head_first.
      * reflexivity.
      * reflexivity.
      * vm_compute. reflexivity.
    + reflexivity.
    + reflexivity.
    + vm_compute. reflexivity.
    + lia.
  - reflexivity.
  - reflexivity.
  - reflexivity.
Defined.

(** C10: when the ordinary pool holds fewer than [sample_size]
    trajectories, uniform sampling ends in [AssertionError] and the
    state, the pool included, is as before the call. *)
Theorem uniform_sampling_short_pool_raises {collab : Collaborators}
    (self : State) :
  Py.len (trajectories self) < sample_size self ->
  get_normal_trajectories self = (Raise AssertionError, self).
Proof.
  intros Hlt. pose proof (len_nonneg (trajectories self)) as H0.
  unfold get_normal_trajectories, bind, get, py_assert, eval.
  cbn [app].
  rewrite len_slice_to_nonneg, Z.min_r by lia.
  destruct (Z.eqb_spec (Py.len (trajectories self)) (sample_size self));
    [lia|reflexivity].
Qed.

Lemma uniform_sampling_short_pool_raises_witness :
  get_normal_trajectories Demo.short_learner =
    (Raise AssertionError, Demo.short_learner).
Proof.
  apply (uniform_sampling_short_pool_raises Demo.short_learner).
  vm_compute. reflexivity.
Defined.

(** * Further properties of the sampling policies *)

Section SamplingMore.

Context {collab : Collaborators}.
Implicit Types (self : State).

Lemma set_trajectories_twice (l l' : list Trajectory) self :
  set_trajectories l (set_trajectories l' self) = set_trajectories l self.
Proof. reflexivity. Qed.

(** Sending a list of trajectories one by one appends it to the pool. *)
Lemma send_all (ts : list Trajectory) : forall self,
  for_each ts send_trajectory self =
    (Ok tt, set_trajectories (trajectories self ++ ts) self).
Proof.
  induction ts as [|t ts IH]; intros self.
  - cbn. now rewrite app_nil_r, set_trajectories_same.
  - cbn [for_each]. unfold bind, send_trajectory at 1, modify.
    rewrite IH. cbn. now rewrite <- app_assoc.
Qed.

Lemma get_normal_trajectories_inv self batch self' :
  get_normal_trajectories self = (Ok batch, self') ->
  0 <= sample_size self <= Py.len (trajectories self).
Proof.
  unfold get_normal_trajectories, bind, get, py_assert, eval. cbn [app].
  destruct (Z.eqb_spec (Py.len (Py.slice_to (trajectories self)
                                            (sample_size self)))
                       (sample_size self)) as [Heq|Hne]; [|discriminate].
  intros _.
  pose proof (len_nonneg (Py.slice_to (trajectories self) (sample_size self))).
  pose proof (len_nonneg (Py.slice_from (trajectories self)
                                        (sample_size self))).
  rewrite len_slice_from in *. lia.
Qed.

Lemma get_normal_trajectories_short self :
  ~ 0 <= sample_size self <= Py.len (trajectories self) ->
  get_normal_trajectories self = (Raise AssertionError, self).
Proof.
  intros Hbad.
  destruct (get_normal_trajectories self) as [[batch|e] self'] eqn:E.
  - now apply get_normal_trajectories_inv in E.
  - revert E.
    unfold get_normal_trajectories, bind, get, py_assert, eval, modify, ret.
    cbn [app]. destruct (_ =? _); [|now intros [= <- <-]].
    destruct (0 <? _); discriminate.
Qed.

Lemma get_normal_trajectories_view self :
  sampling_frame (snd (get_normal_trajectories self)) = sampling_frame self /\
  world (snd (get_normal_trajectories self)) = world self /\
  final_trajectories (snd (get_normal_trajectories self)) =
    final_trajectories self /\
  win_trajectories (snd (get_normal_trajectories self)) =
    win_trajectories self.
Proof.
  unfold get_normal_trajectories, bind, get, py_assert, eval, modify, ret.
  cbn [app]. destruct (_ =? _); [|repeat split].
  destruct (0 <? _); repeat split.
Qed.

Lemma bind_keeps {A B V} (view : State -> V) (m : M A) (f : A -> M B) :
  (forall s, view (snd (m s)) = view s) ->
  (forall a s, view (snd (f a s)) = view s) ->
  forall s, view (snd (bind m f s)) = view s.
Proof.
  intros Hm Hf s. unfold bind. specialize (Hm s).
  destruct (m s) as [[a|e] s1]; cbn [snd] in *; [|assumption].
  now rewrite Hf.
Qed.

Lemma draw_win_view n q acc self :
  sampling_frame (snd (draw_win n q acc self)) = sampling_frame self.
Proof.
  unfold draw_win, random_shuffle, bind, get, modify, ret.
  destruct (0 <? _); [|reflexivity].
  destruct (shuffle _ _) as [l w]. cbn [win_trajectories set_win_trajectories].
  destruct (128 <? _); reflexivity.
Qed.

Lemma draw_final_view q acc self :
  sampling_frame (snd (draw_final q acc self)) = sampling_frame self.
Proof.
  unfold draw_final, random_shuffle, bind, get, modify, ret.
  destruct (0 <? _); [|reflexivity].
  destruct (shuffle _ _) as [l w].
  cbn [final_trajectories set_final_trajectories].
  destruct (64 <? _); reflexivity.
Qed.

Lemma draw_ordinary_view n acc self :
  sampling_frame (snd (draw_ordinary n acc self)) = sampling_frame self.
Proof.
  unfold draw_ordinary, random_shuffle, bind, get, modify, ret, py_assert,
    eval.
  destruct (use_random_sample _).
  - destruct (shuffle _ _) as [l w]. cbn [trajectories set_trajectories].
    destruct (_ =? _); [|reflexivity]. destruct (0 <? _); reflexivity.
  - destruct (_ =? _); [|reflexivity]. destruct (0 <? _); reflexivity.
Qed.

Lemma get_mixed_trajectories_view self :
  sampling_frame (snd (get_mixed_trajectories self)) = sampling_frame self.
Proof.
  unfold get_mixed_trajectories.
  unfold bind at 1, get at 1. unfold bind at 1, eval at 1.
  destruct (sample_final (sample_size self)) as [qf|e]; [|reflexivity].
  unfold bind at 1, eval at 1.
  destruct (sample_win (sample_size self)) as [qw|e]; [|reflexivity].
  apply (bind_keeps sampling_frame).
  - intros s. apply draw_win_view.
  - intros acc s.
    apply (bind_keeps sampling_frame).
    + intros s0. apply draw_final_view.
    + intros acc0 s0. apply draw_ordinary_view.
Qed.

End SamplingMore.

(** X1: the sampling policies reach nothing but the pools and the random
    generator: whether they return or raise, the network, the step
    counter, the optimizer, the metrics, the checkpoint, the
    configuration and the running flag are as before; uniform sampling
    also leaves the win pool, the final pool and the generator alone. *)
Theorem sampling_reaches_only_the_pools {collab : Collaborators}
    (self : State) :
  (sampling_frame (snd (get_normal_trajectories self)) = sampling_frame self /\
   world (snd (get_normal_trajectories self)) = world self /\
   final_trajectories (snd (get_normal_trajectories self)) =
     final_trajectories self /\
   win_trajectories (snd (get_normal_trajectories self)) =
     win_trajectories self) /\
  sampling_frame (snd (get_mixed_trajectories self)) = sampling_frame self.
Proof.
  split; [apply get_normal_trajectories_view|apply get_mixed_trajectories_view].
Qed.

(** X2: trajectories sent with [send_trajectory] are sampled first in,
    first out: after sending [ts] one by one, uniform sampling returns
    the first [sample_size] elements of the old pool followed by [ts] and
    keeps the others; sent to an empty pool, a list of exactly
    [sample_size] trajectories comes back as the batch, unchanged. *)
Theorem sent_trajectories_are_sampled_in_order {collab : Collaborators}
    (self : State) (ts : list Trajectory) :
  0 <= sample_size self <= Py.len (trajectories self ++ ts) ->
  bind (for_each ts send_trajectory) (fun _ => get_normal_trajectories) self =
    (Ok (firstn (Z.to_nat (sample_size self)) (trajectories self ++ ts)),
     set_trajectories
       (skipn (Z.to_nat (sample_size self)) (trajectories self ++ ts)) self)
  /\
  (trajectories self = [] -> Py.len ts = sample_size self ->
   bind (for_each ts send_trajectory) (fun _ => get_normal_trajectories) self =
     (Ok ts, set_trajectories [] self)).
Proof.
  intros Hn.
  assert (E : bind (for_each ts send_trajectory)
                (fun _ => get_normal_trajectories) self =
              (Ok (firstn (Z.to_nat (sample_size self))
                          (trajectories self ++ ts)),
               set_trajectories
                 (skipn (Z.to_nat (sample_size self))
                        (trajectories self ++ ts)) self)).
  { unfold bind. rewrite send_all.
    now rewrite (get_normal_trajectories_enough
                   (set_trajectories (trajectories self ++ ts) self)). }
  split; [exact E|].
  intros Hempty Hlen. rewrite E, Hempty. cbn [app].
  rewrite <- Hlen. unfold Py.len. rewrite Nat2Z.id.
  now rewrite firstn_all, skipn_all.
Qed.

Lemma sent_trajectories_are_sampled_in_order_witness :
  bind (for_each [7; 8]%nat (@send_trajectory (Demo.collab 2 4 None)))
       (fun _ => get_normal_trajectories) Demo.short_learner =
    (Ok [0; 1; 2; 7]%nat,
     @set_trajectories (Demo.collab 2 4 None) [8]%nat Demo.short_learner).
Proof.
  apply (sent_trajectories_are_sampled_in_order
           Demo.short_learner [7; 8]%nat).
  vm_compute. split; discriminate.
Defined.


(** X3: two uniform samplings in a row return two consecutive chunks of
    the pool: when the pool holds at least twice [sample_size]
    trajectories, the batches are the first and the second
    [sample_size] elements and the pool keeps what follows them. *)
Theorem successive_uniform_batches {collab : Collaborators} (self : State) :
  0 <= sample_size self ->
  2 * sample_size self <= Py.len (trajectories self) ->
  bind get_normal_trajectories (fun b1 =>
    bind get_normal_trajectories (fun b2 => ret (b1, b2))) self =
    (Ok (firstn (Z.to_nat (sample_size self)) (trajectories self),
         firstn (Z.to_nat (sample_size self))
                (skipn (Z.to_nat (sample_size self)) (trajectories self))),
     set_trajectories
       (skipn (Z.to_nat (2 * sample_size self)) (trajectories self)) self).
Proof.
  intros H0 H2. unfold bind at 1.
  rewrite get_normal_trajectories_enough by lia.
  unfold bind at 1.
  set (n := sample_size self) in *.
  rewrite (get_normal_trajectories_enough
             (set_trajectories (skipn (Z.to_nat n) (trajectories self)) self)).
  - unfold ret. cbn [trajectories set_trajectories].
    change (sample_size (set_trajectories
               (skipn (Z.to_nat n) (trajectories self)) self)) with n.
    rewrite set_trajectories_twice, skipn_skipn. do 3 f_equal. lia.
  - change (sample_size (set_trajectories
               (skipn (Z.to_nat n) (trajectories self)) self)) with n.
    cbn [trajectories set_trajectories]. unfold Py.len in *.
    rewrite length_skipn. lia.
Qed.

Lemma successive_uniform_batches_witness :
  bind get_normal_trajectories (fun b1 =>
    bind get_normal_trajectories (fun b2 => ret (b1, b2)))
    Cases.stocked_learner =
    (Ok ([0; 1; 2; 3]%nat, [4; 5; 6; 7]%nat),
     @set_trajectories (Demo.collab 2 4 None) [8]%nat Cases.stocked_learner).
Proof.
  apply (successive_uniform_batches Cases.stocked_learner);
    vm_compute; discriminate.
Defined.


(** X4: with empty win and final pools and no random sampling, mixed
    sampling is uniform sampling: same batch or same exception, same
    state afterwards. *)
Theorem mixed_sampling_of_ordinary_only_is_uniform {collab : Collaborators}
    (self : State) :
  0 <= sample_size self < 2 ^ 1023 ->
  win_trajectories self = [] ->
  final_trajectories self = [] ->
  use_random_sample (config self) = false ->
  get_mixed_trajectories self = get_normal_trajectories self.
Proof.
  intros Hn Hw Hf Hr. destruct (quota_exact _ Hn) as [Hqw Hqf].
  unfold get_mixed_trajectories.
  unfold bind at 1, get at 1. unfold bind at 1, eval at 1. rewrite Hqf.
  unfold bind at 1, eval at 1. rewrite Hqw.
  unfold bind at 1, draw_win, bind at 1, get at 1. rewrite Hw.
  cbn [Py.len length Z.of_nat Z.ltb Z.compare]. unfold ret at 1.
  unfold bind at 1, draw_final, bind at 1, get at 1. rewrite Hf.
  cbn [Py.len length Z.of_nat Z.ltb Z.compare]. unfold ret at 1.
  unfold draw_ordinary, get_normal_trajectories.
  unfold bind at 1, get at 1. rewrite Hr.
  unfold bind at 1, ret at 1. reflexivity.
Qed.

Lemma mixed_sampling_of_ordinary_only_is_uniform_witness :
  get_mixed_trajectories Cases.ordinary_only_learner =
    get_normal_trajectories Cases.ordinary_only_learner /\
  fst (get_mixed_trajectories Cases.ordinary_only_learner) =
    Ok (seq 0 10).
Proof.
  split; [|vm_compute; reflexivity].
  apply (mixed_sampling_of_ordinary_only_is_uniform
           Cases.ordinary_only_learner); try reflexivity.
  vm_compute. split; [discriminate|reflexivity].
Defined.


(** X5: a batch of mixed sampling is made of at most one win trajectory,
    then at most one final trajectory, then ordinary ones: the win part
    has [min(min(1, sample_size / 10), len(win pool))] elements of the win
    pool, the final part [min(min(1, sample_size * 2 / 10), len(final
    pool))] elements of the final pool, and the rest comes from the
    ordinary pool. *)
Theorem mixed_batch_composition {collab : Collaborators}
    (shuffle_perm : forall w (l : list Trajectory),
       Permutation (fst (shuffle w l)) l)
    (self : State) (batch : list Trajectory) (self' : State) :
  0 <= sample_size self < 2 ^ 1023 ->
  get_mixed_trajectories self = (Ok batch, self') ->
  exists from_win from_final from_ordinary,
    batch = (from_win ++ from_final) ++ from_ordinary /\
    Py.len from_win =
      Z.min (Z.min 1 (sample_size self / 10))
            (Py.len (win_trajectories self)) /\
    Py.len from_final =
      Z.min (Z.min 1 (sample_size self * 2 / 10))
            (Py.len (final_trajectories self)) /\
    Py.len from_win <= 1 /\ Py.len from_final <= 1 /\
    incl from_win (win_trajectories self) /\
    incl from_final (final_trajectories self) /\
    incl from_ordinary (trajectories self).
Proof.
  intros Hn E. destruct (quota_exact _ Hn) as [Hqw Hqf].
  set (qw := Z.min 1 (sample_size self / 10)) in *.
  set (qf := Z.min 1 (sample_size self * 2 / 10)) in *.
  assert (Hw : 0 <= qw <= 1).
  { assert (0 <= sample_size self / 10) by (apply Z.div_pos; lia).
    subst qw. lia. }
  assert (Hf : 0 <= qf <= 1).
  { assert (0 <= sample_size self * 2 / 10) by (apply Z.div_pos; lia).
    subst qf. lia. }
  destruct (get_mixed_trajectories_spec shuffle_perm self qw qf Hqw Hqf)
    as (sw & sf & so & self1 & Hpw & Hpf & Hpo & _ & E1 & _).
  cbv zeta in E1. rewrite E in E1.
  destruct (Py.len _ =? sample_size self); [|discriminate].
  injection E1 as -> <-.
  assert (Hincl : forall (l pool : list Trajectory) k,
            Permutation l pool -> incl (Py.slice_to l k) pool).
  { intros l pool k Hp x Hx. apply (Permutation_in _ Hp).
    rewrite <- (slice_to_from l k). apply in_or_app. now left. }
  eexists _, _, _. split; [reflexivity|].
  rewrite !len_slice_to_nonneg by lia.
  rewrite (len_permutation _ _ Hpw), (len_permutation _ _ Hpf).
  repeat split; try lia; now apply Hincl.
Qed.

Lemma mixed_batch_composition_witness :
  exists from_win from_final from_ordinary : list nat,
    fst (get_mixed_trajectories Demo.mixed_learner) =
      Ok ((from_win ++ from_final) ++ from_ordinary) /\
    Py.len from_win = 1 /\ Py.len from_final = 1.
Proof.
  destruct (get_mixed_trajectories Demo.mixed_learner)
    as [[batch|e] self'] eqn:E; [|vm_compute in E; discriminate].
  destruct (mixed_batch_composition (demo_shuffle_perm 10 1 None)
              Demo.mixed_learner batch self')
    as (fw & ff & fo & -> & Hw & Hf & _).
  - vm_compute. split; [discriminate|reflexivity].
  - exact E.
  - exists fw, ff, fo. split; [reflexivity|]. split; [exact Hw|exact Hf].
Defined.


(** X6: a mixed sampling that fails does not consume the ordinary pool:
    after the exception the pool holds the trajectories it held, in the
    same order when random sampling is off. *)
Theorem failed_mixed_sampling_keeps_ordinary_pool {collab : Collaborators}
    (shuffle_perm : forall w (l : list Trajectory),
       Permutation (fst (shuffle w l)) l)
    (self : State) (e : exn) (self' : State) :
  get_mixed_trajectories self = (Raise e, self') ->
  Permutation (trajectories self') (trajectories self) /\
  (use_random_sample (config self) = false ->
   trajectories self' = trajectories self).
Proof.
  intros E.
  destruct (sample_win (sample_size self)) as [qw|ew] eqn:Hqw;
    [destruct (sample_final (sample_size self)) as [qf|ef] eqn:Hqf|].
  - destruct (get_mixed_trajectories_spec shuffle_perm self qw qf Hqw Hqf)
      as (sw & sf & so & self1 & _ & _ & Hpo & Hid & E1 & _ & _ & Eo).
    cbv zeta in E1, Eo. rewrite E in E1.
    destruct (Py.len _ =? sample_size self); [discriminate|].
    injection E1 as _ <-. rewrite Eo. split; [assumption|]. exact Hid.
  - destruct (get_mixed_trajectories_no_quota self) as [e0 E0].
    { intros qw' qf' _ H. rewrite Hqf in H. discriminate. }
    rewrite E in E0. injection E0 as _ ->. split; [apply Permutation_refl|].
    reflexivity.
  - destruct (get_mixed_trajectories_no_quota self) as [e0 E0].
    { intros qw' qf' H _. rewrite Hqw in H. discriminate. }
    rewrite E in E0. injection E0 as _ ->. split; [apply Permutation_refl|].
    reflexivity.
Qed.

Lemma failed_mixed_sampling_keeps_ordinary_pool_witness :
  fst (get_mixed_trajectories Cases.starved_learner) = Raise AssertionError /\
  trajectories (snd (get_mixed_trajectories Cases.starved_learner)) =
    trajectories Cases.starved_learner.
Proof.
  split; [vm_compute; reflexivity|].
  destruct (get_mixed_trajectories Cases.starved_learner)
    as [[batch|e] self'] eqn:E; [vm_compute in E; discriminate|].
  apply (failed_mixed_sampling_keeps_ordinary_pool
           (demo_shuffle_perm 10 1 None) Cases.starved_learner e self' E).
  reflexivity.
Defined.


(** * Further properties of the update step *)

Section UpdateMore.

Context {collab : Collaborators}.
Implicit Types (self : State).

Lemma for_each_keeps {A V} (view : State -> V) (body : A -> M unit) :
  (forall x s, view (snd (body x s)) = view s) ->
  forall (l : list A) s, view (snd (for_each l body s)) = view s.
Proof.
  intros Hbody l. induction l as [|x l IH]; intros s; [reflexivity|].
  cbn [for_each]. apply bind_keeps; [apply Hbody|intros _; apply IH].
Qed.

(** The entries that one mini-batch sends to the summary writer. *)
Lemma log_components_writer (loss_dict : list (string * Scalar)) : forall self,
  for_each loss_dict (fun '(i, k) =>
    bind get (fun self =>
      add_scalar (String.append "learner/" i) k (learner_steps self)))
    self =
  (Ok tt,
   set_writer
     (writer self ++
      map (fun ik => (String.append "learner/" (fst ik), snd ik,
                      learner_steps self)) loss_dict) self).
Proof.
  induction loss_dict as [|[i k] l IH]; intros self.
  - cbn. rewrite app_nil_r. now destruct self.
  - cbn [for_each]. unfold bind at 1. unfold bind at 1, get at 1.
    unfold add_scalar at 1, modify at 1. rewrite IH.
    cbn. now rewrite <- app_assoc.
Qed.

Lemma update_batch_frame ts batch_id self :
  batch_frame (snd (update_batch ts batch_id self)) = batch_frame self.
Proof.
  unfold update_batch. unfold bind at 1, get at 1.
  unfold bind at 1, eval at 1.
  destruct (loss_function _ _ _ _ _ _) as [[loss loss_dict]|e];
    [|reflexivity].
  unfold bind at 1. rewrite log_components_writer.
  unfold bind at 1, get at 1. unfold bind at 1, eval at 1.
  cbn [optimizer learner_model set_writer].
  destruct (optimizer_step _ _ _) as [[optimizer' model']|e]; reflexivity.
Qed.

Lemma update_batch_progress ts batch_id self :
  exists j, 0 <= j <= 1 /\
    learner_steps (snd (update_batch ts batch_id self)) =
      learner_steps self + j * (batch_size * sequence_length).
Proof.
  unfold update_batch. unfold bind at 1, get at 1.
  unfold bind at 1, eval at 1.
  destruct (loss_function _ _ _ _ _ _) as [[loss loss_dict]|e];
    [|exists 0; cbn; lia].
  unfold bind at 1. rewrite log_components_writer.
  unfold bind at 1, get at 1. unfold bind at 1, eval at 1.
  cbn [optimizer learner_model set_writer].
  destruct (optimizer_step _ _ _) as [[optimizer' model']|e];
    [exists 1|exists 0];
    (split; [lia|]); unfold add_scalar, bind, get, modify;
    cbn [snd learner_steps set_learner_steps set_writer set_optimizer
         set_learner_model]; ring.
Qed.

Lemma update_batch_config ts batch_id self :
  config (snd (update_batch ts batch_id self)) = config self.
Proof.
  pose proof (update_batch_frame ts batch_id self) as H.
  unfold batch_frame in H. now injection H.
Qed.

(** A loop whose body keeps the configuration [cfg] and advances the
    counter by at most [J] units of [u] advances it by at most [J] units
    for each element, whether it completes or raises. *)
Lemma for_each_progress {A} (cfg : Config) (body : A -> M unit) (u J : Z) :
  0 <= J ->
  (forall x s, config s = cfg ->
     config (snd (body x s)) = cfg /\
     exists j, 0 <= j <= J /\
       learner_steps (snd (body x s)) = learner_steps s + j * u) ->
  forall (l : list A) s, config s = cfg ->
    config (snd (for_each l body s)) = cfg /\
    exists j, 0 <= j <= Py.len l * J /\
      learner_steps (snd (for_each l body s)) = learner_steps s + j * u.
Proof.
  intros HJ Hbody l. induction l as [|x l IH]; intros s Hcfg.
  - split; [assumption|]. exists 0. cbn. unfold Py.len. cbn. lia.
  - cbn [for_each]. unfold bind.
    destruct (Hbody x s Hcfg) as (Hc1 & j1 & Hj1 & E1).
    assert (Hlen : Py.len (x :: l) = Py.len l + 1)
      by (unfold Py.len; cbn [length]; lia).
    destruct (body x s) as [[a|e] s1]; cbn [snd] in *.
    + destruct (IH s1 Hc1) as (Hc2 & j2 & Hj2 & E2).
      split; [assumption|].
      exists (j1 + j2). split; [nia|]. rewrite E2, E1. ring.
    + split; [assumption|].
      exists j1. pose proof (len_nonneg l). split; [nia|assumption].
Qed.

Lemma bind_get {A} (f : State -> M A) s : bind get f s = f s s.
Proof. reflexivity. Qed.

(** One epoch, on any outcome. *)
Lemma epoch_progress ts cfg s :
  config s = cfg ->
  config (snd (bind get (fun self =>
            for_each (Py.range (count_of_batches (config self)))
              (fun batch_id => update_batch ts batch_id)) s)) = cfg /\
  exists j, 0 <= j <= Z.max 0 (count_of_batches cfg) /\
    learner_steps (snd (bind get (fun self =>
            for_each (Py.range (count_of_batches (config self)))
              (fun batch_id => update_batch ts batch_id)) s)) =
      learner_steps s + j * (batch_size * sequence_length).
Proof.
  intros Hcfg. rewrite bind_get, Hcfg.
  destruct (for_each_progress cfg
              (fun batch_id => update_batch ts batch_id)
              (batch_size * sequence_length) 1 ltac:(lia))
    with (l := Py.range (count_of_batches cfg)) (s := s)
    as (Hc & j & Hj & Ej).
  - intros x s0 Hc0. split.
    + now rewrite update_batch_config.
    + apply update_batch_progress.
  - assumption.
  - split; [assumption|]. rewrite len_range in Hj. exists j. split; [lia|].
    exact Ej.
Qed.

Lemma update_parameters_short self :
  is_rl_training (config self) = true ->
  ~ 0 <= sample_size self <= Py.len (trajectories self) ->
  update_parameters self = (Raise AssertionError, self).
Proof.
  intros Htr Hbad. unfold update_parameters.
  unfold bind at 1, get at 1. rewrite Htr. cbn [negb].
  unfold bind at 1. now rewrite get_normal_trajectories_short.
Qed.

End UpdateMore.

(** X7: a mini-batch that is processed sends to the summary writer one
    entry for each loss component, in their order and tagged
    ["learner/"] followed by the component's name, then one entry
    ["learner/loss"], all of them keyed by the step counter as it was
    before the mini-batch; it installs the optimizer's network and state,
    advances the counter and leaves the pools, the checkpoint, the
    configuration and the running flag alone. *)
Theorem processed_batch_effects {collab : Collaborators}
    (ts : list Trajectory) (batch_id : Z) (self : State)
    (loss : Loss) (loss_dict : list (string * Scalar))
    (optimizer' : Optimizer) (model' : Net) :
  loss_function (learner_model self) (learner_steps self)
    (Py.slice ts (batch_id * batch_size) ((batch_id + 1) * batch_size))
    (use_opponent_state (config self)) (no_replay_learn (config self))
    (only_update_baseline (config self)) = Ok (loss, loss_dict) ->
  optimizer_step (optimizer self) (learner_model self) loss =
    Ok (optimizer', model') ->
  exists self',
    update_batch ts batch_id self = (Ok tt, self') /\
    writer self' =
      writer self ++
      map (fun ik => (String.append "learner/" (fst ik), snd ik,
                      learner_steps self)) loss_dict ++
      [("learner/loss"%string, loss_item loss, learner_steps self)] /\
    learner_model self' = model' /\
    optimizer self' = optimizer' /\
    learner_steps self' = learner_steps self + batch_size * sequence_length /\
    batch_frame self' = batch_frame self.
Proof.
  intros Hloss Hopt. unfold update_batch.
  unfold bind at 1, get at 1. unfold bind at 1, eval at 1. rewrite Hloss.
  unfold bind at 1. rewrite log_components_writer.
  unfold bind at 1, get at 1. unfold bind at 1, eval at 1.
  cbn [optimizer learner_model set_writer]. rewrite Hopt.
  unfold bind, get, modify, add_scalar. eexists. split; [reflexivity|].
  cbn. rewrite <- app_assoc. repeat split.
Qed.

Lemma processed_batch_effects_witness :
  exists self',
    @update_batch (Demo.collab 2 4 None) [0; 1; 2; 3]%nat 1
      Demo.uniform_learner = (Ok tt, self') /\
    writer self' =
      [("learner/actor"%string, 2%nat, 0); ("learner/loss"%string, 2%nat, 0)]
    /\ learner_steps self' = 8.
Proof.
  destruct (@processed_batch_effects (Demo.collab 2 4 None)
              [0; 1; 2; 3]%nat 1 Demo.uniform_learner
              2%nat [("actor"%string, 2%nat)] 1%nat 1%nat)
    as (self' & E & Hw & _ & _ & Hs & _); try reflexivity.
  exists self'. split; [exact E|]. split; [exact Hw|exact Hs].
Defined.


(** X8: a call of [update_parameters] that completes with training
    enabled has consumed exactly the first [sample_size] trajectories of
    the ordinary pool, has left the win and final pools, the
    configuration and the running flag alone, and has written a
    checkpoint: the checkpoint holds the network as trained, and the
    learner's network is that network switched back to evaluation
    mode. *)
Theorem completed_update_effects {collab : Collaborators}
    (self self' : State) :
  is_rl_training (config self) = true ->
  update_parameters self = (Ok tt, self') ->
  0 <= sample_size self <= Py.len (trajectories self) /\
  trajectories self' =
    skipn (Z.to_nat (sample_size self)) (trajectories self) /\
  win_trajectories self' = win_trajectories self /\
  final_trajectories self' = final_trajectories self /\
  config self' = config self /\
  is_running self' = is_running self /\
  exists trained,
    checkpoint self' = Some trained /\
    learner_model self' = model_eval trained.
Proof.
  intros Htr. unfold update_parameters.
  unfold bind at 1, get at 1. rewrite Htr. cbn [negb].
  unfold bind at 1.
  destruct (get_normal_trajectories self) as [[ts|e] self1] eqn:En;
    [|discriminate].
  pose proof (get_normal_trajectories_inv _ _ _ En) as Hn.
  rewrite (get_normal_trajectories_enough self Hn) in En.
  injection En as <- <-.
  unfold bind at 1, modify at 1. unfold bind at 1.
  match goal with |- context [for_each ?l ?body ?s] =>
    pose proof (for_each_keeps batch_frame body) as Hkeep;
    specialize (Hkeep (fun ep_id s0 =>
      for_each_keeps batch_frame _
        (fun batch_id s1 => update_batch_frame _ batch_id s1) _ _) l s);
    destruct (for_each l body s) as [[[]|e] self2]; [|discriminate]
  end.
  cbn [snd] in Hkeep. unfold batch_frame, pools_view in Hkeep.
  cbn in Hkeep. injection Hkeep as Hc Ho Hf Hw Hr Hk Hwd.
  unfold bind at 1, get at 1. unfold bind at 1.
  destruct (torch_save _ _); [discriminate|].
  unfold modify. intros [= <-]. cbn.
  repeat split; try assumption; try lia.
  now exists (learner_model self2).
Qed.

Lemma completed_update_effects_witness :
  exists self',
    update_parameters Demo.uniform_learner = (Ok tt, self') /\
    trajectories self' = [4; 5]%nat /\
    checkpoint self' = Some 4%nat.
Proof.
  destruct (update_parameters Demo.uniform_learner)
    as [[[]|e] self'] eqn:E; [|vm_compute in E; discriminate].
  destruct (completed_update_effects Demo.uniform_learner self' eq_refl E)
    as (_ & Ho & _).
  exists self'. split; [reflexivity|]. split; [exact Ho|].
  vm_compute in E. now injection E as <-.
Defined.


(** X9: with training enabled and an ordinary pool that does not hold a
    sample, [update_parameters] raises [AssertionError] before anything
    is done: the state, network mode and checkpoint included, is as
    before. *)
Theorem update_of_short_pool_raises {collab : Collaborators} (self : State) :
  is_rl_training (config self) = true ->
  ~ 0 <= sample_size self <= Py.len (trajectories self) ->
  update_parameters self = (Raise AssertionError, self).
Proof.
  intros Htr Hbad. unfold update_parameters.
  unfold bind at 1, get at 1. rewrite Htr. cbn [negb].
  unfold bind at 1. now rewrite get_normal_trajectories_short.
Qed.

Lemma update_of_short_pool_raises_witness :
  update_parameters Demo.short_learner =
    (Raise AssertionError, Demo.short_learner).
Proof.
  apply (update_of_short_pool_raises Demo.short_learner); [reflexivity|].
  vm_compute. intros [_ H]. now apply H.
Defined.


(** X10: a call of [update_parameters] that raises writes no checkpoint
    and leaves the win and final pools alone; the step counter has
    advanced by a whole number of mini-batches, at most
    [num_epochs * count_of_batches] of them, and the ordinary pool is
    either as before or has already lost the sample. *)
Theorem interrupted_update_effects {collab : Collaborators}
    (self : State) (e : exn) (self' : State) :
  update_parameters self = (Raise e, self') ->
  checkpoint self' = checkpoint self /\
  win_trajectories self' = win_trajectories self /\
  final_trajectories self' = final_trajectories self /\
  (trajectories self' = trajectories self \/
   trajectories self' =
     skipn (Z.to_nat (sample_size self)) (trajectories self)) /\
  exists k,
    0 <= k <= Z.max 0 (num_epochs (config self))
              * Z.max 0 (count_of_batches (config self)) /\
    learner_steps self' =
      learner_steps self + k * (batch_size * sequence_length).
Proof.
  unfold update_parameters.
  unfold bind at 1, get at 1.
  destruct (is_rl_training (config self)); cbn [negb]; [|discriminate].
  unfold bind at 1.
  destruct (get_normal_trajectories self) as [[ts|e0] self1] eqn:En.
  - pose proof (get_normal_trajectories_inv _ _ _ En) as Hn.
    rewrite (get_normal_trajectories_enough self Hn) in En.
    injection En as <- <-.
    unfold bind at 1, modify at 1. unfold bind at 1.
    match goal with |- context [for_each ?l ?body ?s] =>
      pose proof (for_each_keeps batch_frame body
        (fun ep_id s0 =>
           for_each_keeps batch_frame _
             (fun batch_id s1 => update_batch_frame _ batch_id s1) _ _) l s)
        as Hkeep;
      destruct (for_each_progress (config self) body
                  (batch_size * sequence_length)
                  (Z.max 0 (count_of_batches (config self))) ltac:(lia)
                  (fun ep_id s0 Hc0 => epoch_progress _ (config self) s0 Hc0)
                  l s eq_refl) as (_ & k & Hk0 & Ek);
      destruct (for_each l body s) as [[[]|e1] self2]
    end;
      cbn [snd] in Hkeep, Ek; unfold batch_frame, pools_view in Hkeep;
      cbn in Hkeep; injection Hkeep as Hc Ho Hf Hw Hr Hk Hwd;
      rewrite len_range in Hk0;
      cbn [learner_steps set_learner_model] in Ek.
    + unfold bind at 1, get at 1. unfold bind at 1.
      destruct (torch_save _ _) as [e2|]; [|discriminate].
      unfold eval. intros [= _ <-].
      repeat split; try assumption. { now right. }
      now exists k.
    + intros [= _ <-].
      repeat split; try assumption. { now right. }
      now exists k.
  - assert (Hbad : ~ 0 <= sample_size self <= Py.len (trajectories self)).
    { intros Hn. rewrite (get_normal_trajectories_enough self Hn) in En.
      discriminate. }
    rewrite (get_normal_trajectories_short self Hbad) in En.
    injection En as <- <-. intros [= _ <-].
    repeat split. { now left. }
    exists 0. split; [|lia].
    assert (0 <= Z.max 0 (num_epochs (config self))
                 * Z.max 0 (count_of_batches (config self))) by nia.
    lia.
Qed.

Lemma interrupted_update_effects_witness :
  exists self',
    update_parameters Cases.second_epoch_failure =
      (Raise (ExternalError "loss"), self') /\
    checkpoint self' = None /\
    learner_steps self' = 8 /\
    trajectories self' = [2; 3; 4; 5; 6; 7; 8; 9]%nat.
Proof.
  destruct (update_parameters Cases.second_epoch_failure)
    as [[[]|e] self'] eqn:E; [vm_compute in E; discriminate|].
  destruct (interrupted_update_effects Cases.second_epoch_failure e self' E)
    as (Hc & _).
  vm_compute in E. injection E as <- <-.
  eexists. split; [reflexivity|]. split; [exact Hc|]. split; reflexivity.
Defined.






(** * Further properties of the run loop *)

Section RunMore.

Context {collab : Collaborators}.
Implicit Types (self : State).

(** Training enabled and a sample in the pool: whatever the update then
    does, the sample has left the pool. *)
Lemma update_parameters_consumes self :
  is_rl_training (config self) = true ->
  0 <= sample_size self <= Py.len (trajectories self) ->
  trajectories (snd (update_parameters self)) =
    skipn (Z.to_nat (sample_size self)) (trajectories self).
Proof.
  intros Htr Hn. unfold update_parameters.
  unfold bind at 1, get at 1. rewrite Htr. cbn [negb].
  unfold bind at 1. rewrite (get_normal_trajectories_enough self Hn).
  unfold bind at 1, modify at 1. unfold bind at 1.
  match goal with |- context [for_each ?l ?body ?s] =>
    pose proof (for_each_keeps batch_frame body
      (fun ep_id s0 =>
         for_each_keeps batch_frame _
           (fun batch_id s1 => update_batch_frame _ batch_id s1) _ _) l s)
      as Hkeep;
    destruct (for_each l body s) as [[[]|e1] self2]
  end;
    cbn [snd] in Hkeep; unfold batch_frame, pools_view in Hkeep;
    cbn in Hkeep; injection Hkeep as Hc Ho Hf Hw Hr Hk Hwd;
    [|exact Ho].
  unfold bind at 1, get at 1. unfold bind at 1.
  destruct (torch_save _ _); exact Ho.
Qed.

Lemma iteration_idle self :
  is_rl_training (config self) = false \/
  Py.len (trajectories self)
    < buffer_size (config self) * count_of_batches (config self) * batch_size ->
  iteration self = (Ok tt, set_world (sleep (1 # 20) (world self)) self).
Proof.
  intros Hidle. unfold iteration. rewrite bind_get.
  destruct (Z.leb_spec
              (buffer_size (config self) * count_of_batches (config self)
               * batch_size) (Py.len (trajectories self))) as [Hfull|Hlow].
  - destruct Hidle as [Hoff|Hlow]; [|lia].
    unfold bind. unfold update_parameters, bind, get. rewrite Hoff. reflexivity.
  - reflexivity.
Qed.

Lemma run_loop_idle fuel : forall start_time self trace self',
  is_rl_training (config self) = false \/
  Py.len (trajectories self)
    < buffer_size (config self) * count_of_batches (config self) * batch_size ->
  run_loop fuel start_time self = Some (trace, self') ->
  learning_view self' = learning_view self /\
  pools_view self' = pools_view self /\
  config self' = config self /\
  is_running self' = is_running self /\
  Forall (fun r => r = Ok tt) trace.
Proof.
  induction fuel as [|fuel IH]; intros start_time self trace self' Hidle E;
    [discriminate|].
  cbn [run_loop] in E.
  destruct (time (world self)) as [now w].
  destruct (negb _).
  - rewrite (iteration_idle (set_world w self) Hidle) in E.
    destruct (run_loop fuel start_time _) as [[trace1 self2]|] eqn:E1;
      [|discriminate].
    injection E as <- <-.
    apply IH in E1; [|exact Hidle].
    destruct E1 as (H1 & H2 & H3 & H4 & H5).
    repeat split; try assumption. now constructor.
  - injection E as <- <-. repeat split. constructor.
Qed.

End RunMore.

(** X12: a run loop that has nothing to do changes nothing: when
    training is disabled, or when the ordinary pool is below the
    threshold [buffer_size * count_of_batches * batch_size], every
    finished run, however many iterations it made, has left the pools,
    the network, the optimizer, the step counter, the metrics, the
    checkpoint and the configuration as they were; no iteration raised
    and [is_running] is false. *)
Theorem idle_run_changes_nothing {collab : Collaborators}
    (fuel : nat) (self : State) (trace : list (result unit))
    (self' : State) :
  is_rl_training (config self) = false \/
  Py.len (trajectories self)
    < buffer_size (config self) * count_of_batches (config self) * batch_size ->
  run fuel self = Some (trace, self') ->
  learning_view self' = learning_view self /\
  pools_view self' = pools_view self /\
  config self' = config self /\
  is_running self' = false /\
  Forall (fun r => r = Ok tt) trace.
Proof.
  intros Hidle. unfold run.
  destruct (time (world self)) as [start_time w0].
  destruct (run_loop fuel start_time _) as [[trace1 self1]|] eqn:E;
    [|discriminate].
  intros [= <- <-].
  apply run_loop_idle in E; [|exact Hidle].
  destruct E as (H1 & H2 & H3 & _ & H5).
  repeat split; assumption.
Qed.

Lemma idle_run_changes_nothing_witness :
  exists trace self',
    run 10 Demo.idle_learner = Some (trace, self') /\
    pools_view self' = pools_view Demo.idle_learner /\
    learning_view self' = learning_view Demo.idle_learner /\
    length trace = 4%nat.
Proof.
  destruct (run 10 Demo.idle_learner) as [[trace self']|] eqn:E;
    [|vm_compute in E; discriminate].
  destruct (idle_run_changes_nothing 10 Demo.idle_learner trace self')
    as (Hl & Hp & _).
  - now left.
  - exact E.
  - exists trace, self'. split; [reflexivity|]. split; [exact Hp|].
    split; [exact Hl|]. vm_compute in E. now injection E as <- _.
Defined.


(** X13: an iteration that the threshold lets through consumes exactly
    one sample, even when the update then fails: with training enabled,
    [buffer_size >= 1] and a sample size that is not negative, a pool at
    or above the threshold loses its first [sample_size] trajectories in
    the iteration, whether the iteration returns or raises, and keeps at
    least [(buffer_size - 1) * sample_size] of them. *)
Theorem admitted_iteration_consumes_one_sample {collab : Collaborators}
    (self : State) :
  is_rl_training (config self) = true ->
  1 <= buffer_size (config self) ->
  0 <= sample_size self ->
  buffer_size (config self) * count_of_batches (config self) * batch_size
    <= Py.len (trajectories self) ->
  trajectories (snd (iteration self)) =
    skipn (Z.to_nat (sample_size self)) (trajectories self) /\
  (buffer_size (config self) - 1) * sample_size self
    <= Py.len (trajectories (snd (iteration self))).
Proof.
  intros Htr Hb Hn Hfull.
  assert (Hle : sample_size self <= Py.len (trajectories self))
    by (unfold sample_size in *; nia).
  assert (E : trajectories (snd (iteration self)) =
              skipn (Z.to_nat (sample_size self)) (trajectories self)).
  { unfold iteration. rewrite bind_get.
    apply Z.leb_le in Hfull. rewrite Hfull. unfold bind.
    pose proof (update_parameters_consumes self Htr (conj Hn Hle)) as Hc.
    destruct (update_parameters self) as [[[]|e] s1]; exact Hc. }
  split; [exact E|].
  rewrite E. unfold Py.len in *. rewrite length_skipn.
  apply Z.leb_le in Hfull. unfold sample_size in *. nia.
Qed.

Lemma admitted_iteration_consumes_one_sample_witness :
  fst (iteration Cases.first_batch_failure) = Raise (ExternalError "loss") /\
  trajectories (snd (iteration Cases.first_batch_failure)) =
    [2; 3; 4; 5; 6; 7; 8; 9]%nat.
Proof.
  split; [vm_compute; reflexivity|].
  apply (admitted_iteration_consumes_one_sample Cases.first_batch_failure);
    vm_compute; try reflexivity; discriminate.
Defined.


(** X14: a threshold below the sample size ends the learner: with
    training enabled, when the pool is at or above the threshold but
    does not hold a sample (as with [buffer_size = 0]), the first
    iteration raises [AssertionError] and the run ends after it, the
    pools and the learner untouched and [is_running] false. *)
Theorem run_without_a_sample_stops_at_once {collab : Collaborators}
    (self : State) (t0 t1 : Q) (w0 w1 : World) (fuel : nat) :
  is_rl_training (config self) = true ->
  buffer_size (config self) * count_of_batches (config self) * batch_size
    <= Py.len (trajectories self) ->
  ~ 0 <= sample_size self <= Py.len (trajectories self) ->
  time (world self) = (t0, w0) ->
  time w0 = (t1, w1) ->
  Qle_bool (max_time_for_training (config self)) (t1 - t0)%Q = false ->
  run (S fuel) self =
    Some ([Raise AssertionError], set_is_running false (set_world w1 self)).
Proof.
  intros Htr Hfull Hbad Ht0 Ht1 Hlive. unfold run. rewrite Ht0.
  cbn [run_loop world set_is_running set_world config]. rewrite Ht1, Hlive.
  cbn [negb].
  rewrite (iteration_propagates _ AssertionError
             (set_world w1 (set_is_running true (set_world w0 self)))).
  - reflexivity.
  - exact Hfull.
  - now apply update_parameters_short.
Qed.

Lemma run_without_a_sample_stops_at_once_witness :
  exists self',
    run 3 Cases.unbuffered_learner = Some ([Raise AssertionError], self') /\
    trajectories self' = [0%nat] /\ is_running self' = false.
Proof.
  eexists. split; [|split].
  - apply (run_without_a_sample_stops_at_once Cases.unbuffered_learner
             0%Q 1%Q 1%nat 2%nat 2); try reflexivity.
    + vm_compute. discriminate.
    + vm_compute. intros [_ H]. now apply H.
  - reflexivity.
  - reflexivity.
Defined.


(** X15: a negative [count_of_batches * batch_size] is no sample size:
    whatever the pool holds, uniform sampling then ends in
    [AssertionError] and leaves the state as it was, because the slice
    [pool[:sample_size]] cannot have a negative length. *)
Theorem negative_sample_size_raises {collab : Collaborators} (self : State) :
  sample_size self < 0 ->
  get_normal_trajectories self = (Raise AssertionError, self).
Proof.
  intros Hneg. apply get_normal_trajectories_short.
  pose proof (len_nonneg (trajectories self)). lia.
Qed.

Lemma negative_sample_size_raises_witness :
  get_normal_trajectories Cases.negative_learner =
    (Raise AssertionError, Cases.negative_learner).
Proof.
  apply (negative_sample_size_raises Cases.negative_learner).
  vm_compute. reflexivity.
Defined.
